(** * anomalib: visualisation composer and CLI callback pipeline

    A shallow embedding of
      - [anomalib/post_processing/visualizer.py]
        ([ImageResult], [Visualizer], [ImageGrid]) and
      - [anomalib/utils/cli/cli.py] ([AnomalibCLI.__set_callbacks])
    together with the properties stated about them.

    Python exceptions are values of [exn]; a call that may raise returns a
    [Result].  Integer masks are flattened [int32] arrays.  Image arithmetic
    and rendering (superimposing a heat map, marking boundaries, drawing
    labels, matplotlib, OpenCV) belong to external libraries and are the
    operations of the [Backend] class. *)

From Stdlib Require Import ZArith String Ascii List Bool Lia.
From stdpp Require Import base strings list gmap.
Import ListNotations.

Local Open Scope string_scope.
Local Open Scope Z_scope.

(** ** Python runtime: exceptions and results *)

Module Py.

Inductive exn : Type :=
| ValueError (msg : string)
| TypeError (msg : string)
| AttributeError (attr : string)
| AssertionError
| IndexError (msg : string)
| ModuleNotFoundError (name : string)
| OSError (msg : string)
| YAMLError (msg : string).

Inductive Result (A : Type) : Type :=
| Ok (a : A)
| Raise (e : exn).
Arguments Ok {A} a.
Arguments Raise {A} e.

Definition bind {A B : Type} (r : Result A) (k : A -> Result B) : Result B :=
  match r with
  | Ok a => k a
  | Raise e => Raise e
  end.

(** [x in [a, b, ...]] on strings. *)
Fixpoint str_in (x : string) (l : list string) : bool :=
  match l with
  | [] => false
  | y :: l' => String.eqb x y || str_in x l'
  end.

(** Truth value of [Optional[str]]: [None] and [""] are falsy. *)
Definition truthy_opt_str (o : option string) : bool :=
  match o with
  | None => false
  | Some s => negb (String.eqb s "")
  end.

(** [s.split(sep)] for a one-character separator: never empty. *)
Fixpoint split_on (sep : ascii) (cur : string) (s : string) : list string :=
  match s with
  | EmptyString => [cur]
  | String c s' =>
      if Ascii.eqb c sep then cur :: split_on sep "" s'
      else split_on sep (cur +:+ String c "") s'
  end.

Definition str_split (sep : ascii) (s : string) : list string :=
  split_on sep "" s.

(** [l[-1]] on a list of strings known to be non-empty. *)
Definition last_item (l : list string) : string := List.last l "".

(** [s.endswith(suffix)]. *)
Definition endswith (s suffix : string) : bool :=
  let n := String.length s in
  let m := String.length suffix in
  (m <=? n)%nat && String.eqb (String.substring (n - m) m s) suffix.

(** [s.startswith(prefix)]. *)
Definition startswith (s pre : string) : bool := String.prefix pre s.

(** POSIX [os.path.join(a, b)]. *)
Definition os_path_join (a b : string) : string :=
  if startswith b "/" then b
  else if String.eqb a "" || endswith a "/" then a +:+ b
  else a +:+ "/" +:+ b.

(** [c in s] for a character [c]. *)
Fixpoint has_char (c : ascii) (s : string) : bool :=
  match s with
  | EmptyString => false
  | String d s' => Ascii.eqb d c || has_char c s'
  end.

End Py.

Import Py.

Notation "x <- r ;; k" := (Py.bind r (fun x => k))
  (at level 100, r at next level, right associativity).

(** ** NumPy: flattened [int32] arrays *)

Module NumPy.

Record ndarray : Type := mk_ndarray {
  shape : list nat;
  data : list Z
}.

(** Two's-complement wrap-around of [int32] arithmetic. *)
Definition wrap32 (x : Z) : Z := (x + 2 ^ 31) mod 2 ^ 32 - 2 ^ 31.

(** [a *= k]: element-wise, in the array's own dtype. *)
Definition imul (a : ndarray) (k : Z) : ndarray :=
  {| shape := shape a; data := map (fun x => wrap32 (x * k)) (data a) |}.

(** [np.max(a)]: raises on a zero-size array. *)
Definition np_max (a : ndarray) : Result Z :=
  match data a with
  | [] => Raise (ValueError
            "zero-size array to reduction operation maximum which has no identity")
  | x :: xs => Ok (fold_left Z.max xs x)
  end.

(** [np.max(m) <= 1.0] for [m : Optional[np.ndarray]]: with [m = None] the
    comparison of [None] with a float raises. *)
Definition np_max_opt_le1 (m : option ndarray) : Result bool :=
  match m with
  | None => Raise (TypeError
              "'<=' not supported between instances of 'NoneType' and 'float'")
  | Some a => mx <- np_max a ;; Ok (mx <=? 1)
  end.

(** A mask is binary when each of its values is 0 or 1. *)
Definition binary (a : ndarray) : Prop :=
  Forall (fun x => x = 0 \/ x = 1) (data a).

End NumPy.

Import NumPy.

(** ** [anomalib/post_processing/visualizer.py] *)

Module Visualization.

(** What [add_image] accepts as [image]: a picture or a mask array. *)
Inductive Picture (Image : Type) : Type :=
| PImage (i : Image)
| PMask (m : ndarray).
Arguments PImage {Image} i.
Arguments PMask {Image} m.

(** The dictionary [dict(image=..., title=..., color_map=...)]. *)
Record GridEntry (Image : Type) : Type := mk_entry {
  entry_image : Picture Image;
  entry_title : option string;
  entry_color_map : option string
}.
Arguments mk_entry {Image} _ _ _.
Arguments entry_image {Image} _.
Arguments entry_title {Image} _.
Arguments entry_color_map {Image} _.

(** The external image operations, with the keyword arguments the module
    passes them fixed: [superimpose_anomaly_map(..., normalize=False)],
    [mark_boundaries(..., color=(1, 0, 0), mode="thick")],
    [(x * 255).astype(np.uint8)], [cv2.cvtColor(x, cv2.COLOR_RGB2BGR)], and
    [rasterize] for the body of [ImageGrid.generate] after [plt.subplots]:
    one matplotlib axis per entry, in order, drawn and read back as a BGR
    pixel buffer.  They are taken to succeed on the arrays they are given. *)
Class Backend : Type := {
  Image : Type;
  AnomalyMap : Type;
  Score : Type;
  superimpose_anomaly_map : AnomalyMap -> Image -> Image;
  mark_boundaries : Image -> ndarray -> Image;
  add_anomalous_label : Image -> Score -> Image;
  add_normal_label : Image -> Score -> Image;
  one_minus : Score -> Score;
  scale_to_uint8 : Image -> Image;
  cvtColor_RGB2BGR : Image -> Image;
  rasterize : list (GridEntry Image) -> Image
}.

(** [pred_label] is annotated [str] and receives the [.item()] of a tensor. *)
Inductive Label : Type :=
| LInt (z : Z)
| LBool (b : bool)
| LStr (s : string).

Definition truthy (l : Label) : bool :=
  match l with
  | LInt z => negb (z =? 0)
  | LBool b => b
  | LStr s => negb (String.eqb s "")
  end.

Section WithBackend.

Context {B : Backend}.

(** An [ImageResult] instance.  [heat_map] and [segmentations] are declared
    [field(init=False)] without a default: they are [None] here while the
    attribute is unset, and reading an unset attribute raises. *)
Record ImageResult : Type := mk_ImageResult {
  image : Image;
  pred_score : Score;
  pred_label : Label;
  anomaly_map : AnomalyMap;
  gt_mask : option ndarray;
  pred_mask : option ndarray;
  heat_map : option Image;
  segmentations : option Image
}.

Definition set_heat_map (self : ImageResult) (h : Image) : ImageResult :=
  mk_ImageResult (image self) (pred_score self) (pred_label self)
    (anomaly_map self) (gt_mask self) (pred_mask self) (Some h)
    (segmentations self).

Definition set_pred_mask (self : ImageResult) (m : ndarray) : ImageResult :=
  mk_ImageResult (image self) (pred_score self) (pred_label self)
    (anomaly_map self) (gt_mask self) (Some m) (heat_map self)
    (segmentations self).

Definition set_segmentations (self : ImageResult) (s : Image) : ImageResult :=
  mk_ImageResult (image self) (pred_score self) (pred_label self)
    (anomaly_map self) (gt_mask self) (pred_mask self) (heat_map self)
    (Some s).

Definition set_gt_mask (self : ImageResult) (m : ndarray) : ImageResult :=
  mk_ImageResult (image self) (pred_score self) (pred_label self)
    (anomaly_map self) (Some m) (pred_mask self) (heat_map self)
    (segmentations self).

Definition get_heat_map (self : ImageResult) : Result Image :=
  match heat_map self with
  | Some h => Ok h
  | None => Raise (AttributeError "heat_map")
  end.

Definition get_segmentations (self : ImageResult) : Result Image :=
  match segmentations self with
  | Some s => Ok s
  | None => Raise (AttributeError "segmentations")
  end.

(** The first [if] of [__post_init__]: the predicted mask. *)
Definition post_init_pred (self : ImageResult) : Result ImageResult :=
  match pred_mask self with
  | None => Ok self
  | Some m =>
      mx <- np_max m ;;
      if mx <=? 1 then
        let m' := imul m 255 in
        let self := set_pred_mask self m' in
        Ok (set_segmentations self (mark_boundaries (image self) m'))
      else Ok self
  end.

(** The second [if] of [__post_init__]: the ground-truth mask.  Its range
    test reads [self.pred_mask], as the first [if] left it. *)
Definition post_init_gt (self : ImageResult) : Result ImageResult :=
  match gt_mask self with
  | None => Ok self
  | Some g =>
      small <- np_max_opt_le1 (pred_mask self) ;;
      if (small : bool) then Ok (set_gt_mask self (imul g 255)) else Ok self
  end.

Definition post_init (self : ImageResult) : Result ImageResult :=
  let self :=
    set_heat_map self (superimpose_anomaly_map (anomaly_map self) (image self)) in
  self <- post_init_pred self ;;
  post_init_gt self.

(** [ImageResult(image=..., pred_score=..., ...)]: the generated [__init__]
    stores the six arguments and calls [__post_init__].  The two masks are
    distinct arrays, as [visualize_batch] builds them: [self.pred_mask *= 255]
    writes into the predicted mask only. *)
Definition ImageResult_new (img : Image) (score : Score) (label : Label)
    (amap : AnomalyMap) (gt pred : option ndarray) : Result ImageResult :=
  post_init (mk_ImageResult img score label amap gt pred None None).

(** *** [Visualizer] *)

Record Visualizer : Type := mk_Visualizer {
  mode : string;
  task : string
}.

(** [Visualizer.__init__]. *)
Definition Visualizer_new (mode task : string) : Result Visualizer :=
  if negb (str_in mode ["full"; "simple"]) then
    Raise (ValueError ("Unknown visualization mode: " +:+ mode
                       +:+ ". Please choose one of ['full', 'simple']"))
  else if negb (str_in task ["classification"; "segmentation"]) then
    Raise (ValueError ("Unknown task type: " +:+ mode
                       +:+ ". Please choose one of ['classification', 'segmentation']"))
  else Ok (mk_Visualizer mode task).

(** *** [ImageGrid] *)

(** [ImageGrid.add_image]: [self.images.append(image_data)]. *)
Definition add_image (images : list (GridEntry Image)) (img : Picture Image)
    (title color_map : option string) : list (GridEntry Image) :=
  images ++ [mk_entry img title color_map].

(** [ImageGrid.generate]: [plt.subplots(1, num_cols, ...)] refuses zero
    columns; otherwise the entries are drawn left to right. *)
Definition generate (images : list (GridEntry Image)) : Result Image :=
  match images with
  | [] => Raise (ValueError "Number of columns must be a positive integer, not 0")
  | _ :: _ => Ok (rasterize images)
  end.

(** The label-annotated heat map of the classification branches. *)
Definition image_classified (r : ImageResult) (h : Image) : Image :=
  if truthy (pred_label r) then add_anomalous_label h (pred_score r)
  else add_normal_label h (one_minus (pred_score r)).

(** The [add_image] calls of [Visualizer._visualize_full], up to the final
    [visualization.generate()]: the contents of [visualization.images]. *)
Definition _visualize_full_grid (self : Visualizer) (r : ImageResult)
    : Result (list (GridEntry Image)) :=
  let visualization := [] in
  if String.eqb (task self) "segmentation" then
    match pred_mask r with
    | None => Raise AssertionError
    | Some pm =>
        let visualization :=
          add_image visualization (PImage (image r)) (Some "Image") None in
        let visualization :=
          match gt_mask r with
          | Some gt =>
              add_image visualization (PMask gt) (Some "Ground Truth") (Some "gray")
          | None => visualization
          end in
        h <- get_heat_map r ;;
        let visualization :=
          add_image visualization (PImage h) (Some "Predicted Heat Map") None in
        let visualization :=
          add_image visualization (PMask pm) (Some "Predicted Mask") (Some "gray") in
        s <- get_segmentations r ;;
        Ok (add_image visualization (PImage s) (Some "Segmentation Result") None)
    end
  else if String.eqb (task self) "classification" then
    let visualization :=
      add_image visualization (PImage (image r)) (Some "Image") None in
    h <- get_heat_map r ;;
    Ok (add_image visualization (PImage (image_classified r h))
          (Some "Prediction") None)
  else Ok visualization.

(** The panels of the full segmentation view of a result whose heat map,
    predicted mask and segmentations are [h], [pm] and [s], left to right. *)
Definition segmentation_panels (r : ImageResult) (h : Image) (pm : ndarray)
    (s : Image) : list (GridEntry Image) :=
  ([mk_entry (PImage (image r)) (Some "Image") None]
   ++ match gt_mask r with
      | Some g => [mk_entry (PMask g) (Some "Ground Truth") (Some "gray")]
      | None => []
      end
   ++ [mk_entry (PImage h) (Some "Predicted Heat Map") None;
       mk_entry (PMask pm) (Some "Predicted Mask") (Some "gray");
       mk_entry (PImage s) (Some "Segmentation Result") None])%list.

(** [Visualizer._visualize_full]. *)
Definition _visualize_full (self : Visualizer) (r : ImageResult) : Result Image :=
  images <- _visualize_full_grid self r ;;
  generate images.

(** [Visualizer._visualize_simple].  With [pred_mask] unset (None),
    [mark_boundaries] dereferences the label image and raises. *)
Definition _visualize_simple (self : Visualizer) (r : ImageResult) : Result Image :=
  if String.eqb (task self) "segmentation" then
    h <- get_heat_map r ;;
    match pred_mask r with
    | None => Raise (AttributeError "dtype")
    | Some pm =>
        let visualization := mark_boundaries h pm in
        Ok (cvtColor_RGB2BGR (scale_to_uint8 visualization))
    end
  else if String.eqb (task self) "classification" then
    h <- get_heat_map r ;;
    Ok (cvtColor_RGB2BGR (image_classified r h))
  else Raise (ValueError ("Unknown task type: " +:+ task self)).

(** [Visualizer.visualize_image]. *)
Definition visualize_image (self : Visualizer) (r : ImageResult) : Result Image :=
  if String.eqb (mode self) "full" then _visualize_full self r
  else if String.eqb (mode self) "simple" then _visualize_simple self r
  else Raise (ValueError ("Unknown visualization mode: " +:+ mode self)).

(** A batch dictionary, item [i] of each tensor already moved to the host and
    converted ([Denormalize], [.numpy()], [.item()], [.squeeze().int()]);
    the keys ["pred_masks"] and ["mask"] may be absent. *)
Record Batch : Type := mk_Batch {
  batch_image : list Image;
  batch_pred_scores : list Score;
  batch_pred_labels : list Label;
  batch_anomaly_maps : list AnomalyMap;
  batch_pred_masks : option (list ndarray);
  batch_mask : option (list ndarray)
}.

Definition item {A : Type} (l : list A) (i : nat) : Result A :=
  match l !! i with
  | Some a => Ok a
  | None => Raise (IndexError "index out of range")
  end.

Definition item_opt {A : Type} (l : option (list A)) (i : nat)
    : Result (option A) :=
  match l with
  | None => Ok None
  | Some l => a <- item l i ;; Ok (Some a)
  end.

(** One iteration of the loop of [visualize_batch]. *)
Definition visualize_batch_item (self : Visualizer) (batch : Batch) (i : nat)
    : Result Image :=
  img <- item (batch_image batch) i ;;
  score <- item (batch_pred_scores batch) i ;;
  label <- item (batch_pred_labels batch) i ;;
  amap <- item (batch_anomaly_maps batch) i ;;
  pred <- item_opt (batch_pred_masks batch) i ;;
  gt <- item_opt (batch_mask batch) i ;;
  image_result <- ImageResult_new img score label amap gt pred ;;
  visualize_image self image_result.

(** What the generator hands to its consumer, in order: the yielded images,
    ended by the exception that stopped it, if any. *)
Fixpoint run_generator (self : Visualizer) (batch : Batch) (indices : list nat)
    : list (Result Image) :=
  match indices with
  | [] => []
  | i :: rest =>
      match visualize_batch_item self batch i with
      | Ok img => Ok img :: run_generator self batch rest
      | Raise e => [Raise e]
      end
  end.

(** [Visualizer.visualize_batch]. *)
Definition visualize_batch (self : Visualizer) (batch : Batch)
    : list (Result Image) :=
  run_generator self batch (seq 0 (length (batch_image batch))).

(** The operations of a [Visualizer] object, as calls on [self]; each
    returns the object as the call leaves it and what the call produced. *)
Inductive Call : Type :=
| CallVisualizeImage (r : ImageResult)
| CallVisualizeFull (r : ImageResult)
| CallVisualizeSimple (r : ImageResult)
| CallVisualizeBatch (batch : Batch).

Definition run_call (self : Visualizer) (c : Call)
    : Visualizer * list (Result Image) :=
  match c with
  | CallVisualizeImage r => (self, [visualize_image self r])
  | CallVisualizeFull r => (self, [_visualize_full self r])
  | CallVisualizeSimple r => (self, [_visualize_simple self r])
  | CallVisualizeBatch batch => (self, visualize_batch self batch)
  end.

Definition run_calls (self : Visualizer) (cs : list Call) : Visualizer :=
  fold_left (fun v c => fst (run_call v c)) cs self.

End WithBackend.

#[local] Set Warnings "-register-all".

(** A backend that records the calls instead of computing pixels: an image
    is the expression that produced it.  It serves to run the composer on
    concrete inputs. *)
Inductive Expr : Type :=
| Input (name : string)
| Number (z : Z)
| Array (a : ndarray)
| Text (s : string)
| Absent
| Apply (f : string) (args : list Expr).

Definition expr_of_picture (p : Picture Expr) : Expr :=
  match p with
  | PImage i => i
  | PMask m => Array m
  end.

Definition expr_of_option (o : option string) : Expr :=
  match o with
  | Some s => Text s
  | None => Absent
  end.

Definition expr_of_entry (e : GridEntry Expr) : Expr :=
  Apply "imshow" [expr_of_picture (entry_image e);
                  expr_of_option (entry_title e);
                  expr_of_option (entry_color_map e)].

Definition recording : Backend := {|
  Image := Expr;
  AnomalyMap := Expr;
  Score := Expr;
  superimpose_anomaly_map := fun a i => Apply "superimpose_anomaly_map" [a; i];
  mark_boundaries := fun i m => Apply "mark_boundaries" [i; Array m];
  add_anomalous_label := fun i s => Apply "add_anomalous_label" [i; s];
  add_normal_label := fun i s => Apply "add_normal_label" [i; s];
  one_minus := fun s => Apply "sub" [Number 1; s];
  scale_to_uint8 := fun i => Apply "astype_uint8" [Apply "mul" [i; Number 255]];
  cvtColor_RGB2BGR := fun i => Apply "cvtColor_RGB2BGR" [i];
  rasterize := fun l => Apply "cvtColor_RGB2BGR" [Apply "figure" (map expr_of_entry l)]
|}.

(** Sample inputs over the recording backend: an image, a score of 1, the
    label 1, an anomaly map and two one-by-two masks. *)
Definition mask01 : ndarray := mk_ndarray [1; 2]%nat [0; 1].

Definition mask0255 : ndarray := mk_ndarray [1; 2]%nat [0; 255].

Definition sample_new (gt pred : option ndarray)
    : Result (@ImageResult recording) :=
  @ImageResult_new recording (Input "image") (Number 1) (LInt 1)
    (Input "anomaly_map") gt pred.

Definition sample_heat_map : Expr :=
  Apply "superimpose_anomaly_map" [Input "anomaly_map"; Input "image"].

(** The instance a successful [sample_new gt pred] returns is
    [sample_result gt' pred' seg], with the masks and the segmentations as
    [__post_init__] leaves them. *)
Definition sample_result (gt pred : option ndarray) (seg : option Expr)
    : @ImageResult recording :=
  @mk_ImageResult recording (Input "image") (Number 1) (LInt 1)
    (Input "anomaly_map") gt pred (Some sample_heat_map) seg.

Definition sample_overlay : Expr :=
  Apply "mark_boundaries" [Input "image"; Array mask0255].

(** A batch of two items over the recording backend, with or without the
    keys "pred_masks" and "mask". *)
Definition sample_batch (pred_masks masks : option (list ndarray))
    : @Batch recording :=
  @mk_Batch recording
    [Input "image0"; Input "image1"] [Number 1; Number 0] [LInt 1; LInt 0]
    [Input "anomaly_map0"; Input "anomaly_map1"] pred_masks masks.

End Visualization.

(** ** [anomalib/utils/cli/cli.py] *)

Module Cli.

(** A configuration as [OmegaConf.load] returns it: its keys, as dotted
    paths, with the text of their values.  [__set_callbacks] hands it on
    without reading it. *)
Definition DictConfig : Type := list (string * string).

(** How [OmegaConf.load(path)] ends: with the configuration, or with the
    file not readable, or with a text that is not a YAML configuration. *)
Inductive LoadOutcome : Type :=
| Loaded (c : DictConfig)
| Unreadable
| Malformed.

(** What [__set_callbacks] asks of its surroundings: the file system
    ([os.path.isfile], [OmegaConf.load]), whether the two lazily imported
    callback modules can be imported, and whether the NNCF module has the
    attribute [NNCFCallback]. *)
Record Env : Type := mk_Env {
  isfile : string -> bool;
  openvino_module : bool;
  nncf_module : bool;
  nncf_callback_class : bool;
  omegaconf_load : string -> LoadOutcome
}.

(** An entry of [config.trainer.callbacks] as the argument parser leaves it:
    [{'class_path': ..., 'init_args': {...}}].  The parser fills [init_args]
    with every constructor argument; of these the function reads
    ['monitor'] and ['mode']. *)
Record InitArgs : Type := mk_InitArgs {
  monitor : option string;
  mode : string
}.

Record CallbackSpec : Type := mk_CallbackSpec {
  class_path : string;
  init_args : InitArgs
}.

(** The elements of the [callbacks] list: entries of the configuration and
    the callback objects the function constructs. *)
Inductive Callback : Type :=
| FromConfig (c : CallbackSpec)
| ModelCheckpoint (dirpath filename : string) (monitor : option string)
    (mode : string) (auto_insert_metric_name : bool)
| LoadModelCallback (weights_path : string)
| TimerCallback
| MinMaxNormalizationCallback
| CdfNormalizationCallback
| OpenVINOCallback (input_size : list Z) (dirpath filename : string)
| NNCFCallback (config : DictConfig) (dirpath filename : string).

Record TrainerConfig : Type := mk_TrainerConfig {
  callbacks : option (list CallbackSpec);
  resume_from_checkpoint : option string;
  default_root_dir : string
}.

Record MetricsConfig : Type := mk_MetricsConfig {
  normalization_method : option string
}.

(** [config.data.init_args]: it may come without keys, and so without
    [image_size]. *)
Record DataInitArgs : Type := mk_DataInitArgs {
  image_size : option (list Z)
}.

Record DataConfig : Type := mk_DataConfig {
  data_init_args : DataInitArgs
}.

(** [self.config[subcommand]], restricted to what [__set_callbacks] reads. *)
Record Config : Type := mk_Config {
  trainer : TrainerConfig;
  metrics : MetricsConfig;
  data : DataConfig;
  openvino : bool;
  nncf : option string
}.

(** The function appends to the list [callbacks] as it goes and may raise
    part-way: a computation threads the list and ends in a [Result]. *)
Definition M (A : Type) : Type := list Callback -> list Callback * Result A.

Definition ret {A : Type} (a : A) : M A := fun cbs => (cbs, Ok a).

Definition raise {A : Type} (e : exn) : M A := fun cbs => (cbs, Raise e).

Definition mbind {A B : Type} (m : M A) (k : A -> M B) : M B :=
  fun cbs =>
    match m cbs with
    | (cbs', Ok a) => k a cbs'
    | (cbs', Raise e) => (cbs', Raise e)
    end.

(** [callbacks.append(c)]. *)
Definition append (c : Callback) : M unit := fun cbs => ((cbs ++ [c])%list, Ok tt).

(** [callbacks = l]. *)
Definition assign (l : list Callback) : M unit := fun _ => (l, Ok tt).

Definition when (b : bool) (m : M unit) : M unit := if b then m else ret tt.

Notation "m >> k" := (mbind m (fun _ => k))
  (at level 90, right associativity).

(** [{c["class_path"].split(".")[-1]: c["init_args"] for c in callbacks}]:
    a later entry replaces an earlier one of the same class name. *)
Definition class_name (c : CallbackSpec) : string :=
  last_item (str_split "."%char (class_path c)).

Definition callback_args_of (cbs : list CallbackSpec) : gmap string InitArgs :=
  fold_left (fun m c => <[class_name c := init_args c]> m) cbs ∅.

(** The normalization block. *)
Definition unknown_normalization (normalization : string) : string :=
  "Unknown normalization type " +:+ normalization +:+ ". " +:+ String "010"%char ""
  +:+ "Available types are either None, min_max or cdf".

Definition set_normalization (normalization : option string) : M unit :=
  match normalization with
  | Some n =>
      if negb (String.eqb n "") then
        if String.eqb n "min_max" then append MinMaxNormalizationCallback
        else if String.eqb n "cdf" then append CdfNormalizationCallback
        else raise (ValueError (unknown_normalization n))
      else ret tt
  | None => ret tt
  end.

Definition simultaneous_msg : string :=
  "OpenVINO and NNCF cannot be set simultaneously.".

Definition import_module (available : bool) (name : string) : M unit :=
  if available then ret tt else raise (ModuleNotFoundError name).

(** [config.data.init_args.image_size]. *)
Definition read_image_size (config : Config) : M (list Z) :=
  match image_size (data_init_args (data config)) with
  | Some size => ret size
  | None => raise (AttributeError "image_size")
  end.

(** [getattr(nncf_module, "NNCFCallback")]. *)
Definition getattr_NNCFCallback (env : Env) : M unit :=
  if nncf_callback_class env then ret tt
  else raise (AttributeError "NNCFCallback").

(** [OmegaConf.load(path)]. *)
Definition OmegaConf_load (env : Env) (path : string) : M DictConfig :=
  match omegaconf_load env path with
  | Loaded c => ret c
  | Unreadable => raise (OSError path)
  | Malformed => raise (YAMLError path)
  end.

(** The block guarded by [if config.nncf:]. *)
Definition set_nncf (env : Env) (root : string) (path : string) : M unit :=
  if isfile env path && endswith path ".yaml" then
    import_module (nncf_module env) "anomalib.core.callbacks.nncf_callback" >>
    getattr_NNCFCallback env >>
    mbind (OmegaConf_load env path)
      (fun loaded =>
         append (NNCFCallback loaded (os_path_join root "compressed") "model"))
  else
    raise (ValueError
      ("--nncf expects a path to nncf config which is a yaml file, but got " +:+ path)).

(** The body of [AnomalibCLI.__set_callbacks], from [callbacks = []] to the
    last statement before [trainer.callbacks] is assigned.  When the
    configuration has callbacks, [callbacks] is that very list, and the
    appends reach it even if the call raises later. *)
Definition set_callbacks_body (env : Env) (config : Config) : M unit :=
  assign [] >>
  mbind
    (match callbacks (trainer config) with
     | Some cbs =>
         assign (map FromConfig cbs) >>
         let callback_args := callback_args_of cbs in
         match callback_args !! "EarlyStopping" with
         | Some args => ret (monitor args, mode args)
         | None => ret (None, "max")
         end
     | None => ret (None, "max")
     end)
    (fun mm =>
       append (ModelCheckpoint
                 (os_path_join (default_root_dir (trainer config)) "weights")
                 "model" (fst mm) (snd mm) false) >>
       match resume_from_checkpoint (trainer config) with
       | Some ckpt => when (negb (String.eqb ckpt "")) (append (LoadModelCallback ckpt))
       | None => ret tt
       end >>
       append TimerCallback >>
       set_normalization (normalization_method (metrics config)) >>
       when (openvino config && truthy_opt_str (nncf config))
         (raise (ValueError simultaneous_msg)) >>
       when (openvino config)
         (import_module (openvino_module env) "anomalib.utils.callbacks.openvino" >>
          mbind (read_image_size config)
            (fun size =>
               append (OpenVINOCallback size
                         (os_path_join (default_root_dir (trainer config))
                            "compressed")
                         "model"))) >>
       match nncf config with
       | Some path =>
           when (negb (String.eqb path ""))
             (set_nncf env (default_root_dir (trainer config)) path)
       | None => ret tt
       end).

(** [AnomalibCLI.__set_callbacks]: the list [callbacks] as the call leaves
    it, and whether the call returned or raised.  When it returns, the list
    is what [trainer.callbacks] is set to. *)
Definition __set_callbacks (env : Env) (config : Config)
    : list Callback * Result unit :=
  set_callbacks_body env config [].

(** The list [callbacks] starts from: the configured entries, if any. *)
Definition configured (config : Config) : list Callback :=
  match callbacks (trainer config) with
  | Some cbs => map FromConfig cbs
  | None => []
  end.

(** What the call appended. *)
Definition appended (env : Env) (config : Config) : list Callback :=
  drop (length (configured config)) (fst (__set_callbacks env config)).

(** *** The blocks of [__set_callbacks], for the statements below *)

(** The [monitor] and [mode] the checkpoint is built with. *)
Definition checkpoint_args (config : Config) : option string * string :=
  match callbacks (trainer config) with
  | Some cbs =>
      match callback_args_of cbs !! "EarlyStopping" with
      | Some args => (monitor args, mode args)
      | None => (None, "max")
      end
  | None => (None, "max")
  end.

(** [callbacks] when the normalization block is reached. *)
Definition before_normalization (config : Config) : list Callback :=
  (configured config
   ++ [ModelCheckpoint
         (os_path_join (default_root_dir (trainer config)) "weights") "model"
         (fst (checkpoint_args config)) (snd (checkpoint_args config)) false]
   ++ match resume_from_checkpoint (trainer config) with
      | Some ckpt => if String.eqb ckpt "" then [] else [LoadModelCallback ckpt]
      | None => []
      end
   ++ [TimerCallback])%list.

(** The statements after the normalization block. *)
Definition set_exports (env : Env) (config : Config) : M unit :=
  when (openvino config && truthy_opt_str (nncf config))
    (raise (ValueError simultaneous_msg)) >>
  when (openvino config)
    (import_module (openvino_module env) "anomalib.utils.callbacks.openvino" >>
     mbind (read_image_size config)
       (fun size =>
          append (OpenVINOCallback size
                    (os_path_join (default_root_dir (trainer config))
                       "compressed")
                    "model"))) >>
  match nncf config with
  | Some path =>
      when (negb (String.eqb path ""))
        (set_nncf env (default_root_dir (trainer config)) path)
  | None => ret tt
  end.

Definition is_normalization (c : Callback) : bool :=
  match c with
  | MinMaxNormalizationCallback | CdfNormalizationCallback => true
  | _ => false
  end.

(** A method the normalization block accepts: unset, empty, "min_max" or
    "cdf". *)
Definition normalization_known (normalization : option string) : bool :=
  match normalization with
  | Some n => String.eqb n "" || String.eqb n "min_max" || String.eqb n "cdf"
  | None => true
  end.

(** The callbacks the normalization block appends. *)
Definition normalization_callbacks (normalization : option string)
    : list Callback :=
  match normalization with
  | Some n =>
      if String.eqb n "min_max" then [MinMaxNormalizationCallback]
      else if String.eqb n "cdf" then [CdfNormalizationCallback]
      else []
  | None => []
  end.

(** A sample environment, where every path is a file that loads, both
    callback modules can be imported and the NNCF module has its callback
    class, and a sample configuration: an early-stopping callback that
    monitors pixel_AUROC, no checkpoint to resume from, and the given
    normalization method and export options. *)
Definition sample_loaded : DictConfig :=
  [("compression.algorithm", "quantization")].

Definition sample_env : Env :=
  mk_Env (fun _ => true) true true true (fun _ => Loaded sample_loaded).

Definition sample_config (normalization : option string) (openvino : bool)
    (nncf : option string) : Config :=
  mk_Config
    (mk_TrainerConfig
       (Some [mk_CallbackSpec "pytorch_lightning.callbacks.EarlyStopping"
                (mk_InitArgs (Some "pixel_AUROC") "max")])
       None "./results")
    (mk_MetricsConfig normalization)
    (mk_DataConfig (mk_DataInitArgs (Some [256; 256])))
    openvino nncf.

(** The callbacks the export statements construct. *)
Definition is_export (c : Callback) : bool :=
  match c with
  | OpenVINOCallback _ _ _ | NNCFCallback _ _ _ => true
  | _ => false
  end.

Definition is_checkpoint (c : Callback) : bool :=
  match c with
  | ModelCheckpoint _ _ _ _ _ => true
  | _ => false
  end.

(** The callback for a checkpoint to resume from. *)
Definition load_callbacks (config : Config) : list Callback :=
  match resume_from_checkpoint (trainer config) with
  | Some ckpt => if String.eqb ckpt "" then [] else [LoadModelCallback ckpt]
  | None => []
  end.

(** The export callbacks a call appends: none once the normalization block
    or the mutual-exclusion test has raised, or when a step of setting the
    callback up fails (the import of its module, the read of the image size,
    the tests on the NNCF path, the lookup of the NNCF callback class, the
    load of the NNCF configuration). *)
Definition export_callbacks (env : Env) (config : Config) : list Callback :=
  let root := default_root_dir (trainer config) in
  if negb (normalization_known (normalization_method (metrics config))) then []
  else if openvino config then
    if truthy_opt_str (nncf config) then []
    else if openvino_module env then
      match image_size (data_init_args (data config)) with
      | Some size => [OpenVINOCallback size (os_path_join root "compressed") "model"]
      | None => []
      end
    else []
  else
    match nncf config with
    | Some path =>
        if negb (String.eqb path "") && isfile env path
           && endswith path ".yaml" && nncf_module env
           && nncf_callback_class env
        then
          match omegaconf_load env path with
          | Loaded c => [NNCFCallback c (os_path_join root "compressed") "model"]
          | _ => []
          end
        else []
    | None => []
    end.

Definition is_timer (c : Callback) : bool :=
  match c with
  | TimerCallback => true
  | _ => false
  end.

(** The sample configuration with other configured callbacks. *)
Definition sample_config_with (cbs : option (list CallbackSpec)) : Config :=
  mk_Config (mk_TrainerConfig cbs (Some "./results/weights/model.ckpt") "./results")
    (mk_MetricsConfig (Some "min_max"))
    (mk_DataConfig (mk_DataInitArgs (Some [256; 256])))
    false None.

Definition early_stopping (module_path metric md : string) : CallbackSpec :=
  mk_CallbackSpec (module_path +:+ ".EarlyStopping")
    (mk_InitArgs (Some metric) md).

Definition lr_monitor : CallbackSpec :=
  mk_CallbackSpec "pytorch_lightning.callbacks.LearningRateMonitor"
    (mk_InitArgs None "epoch").

End Cli.

(** * Properties *)

(** ** Strings and arrays *)

Module PyFacts.

Lemma str_in_In (x : string) (l : list string) :
  str_in x l = true <-> In x l.
Proof.
  induction l as [|y l IH]; simpl.
  - split; [discriminate | tauto].
  - rewrite orb_true_iff, IH, String.eqb_eq. intuition congruence.
Qed.

Lemma str_in_not_In (x : string) (l : list string) :
  str_in x l = false <-> ~ In x l.
Proof.
  rewrite <- str_in_In. destruct (str_in x l); intuition congruence.
Qed.

End PyFacts.

Module NumPyFacts.

(** The maximum that [np_max] folds is an upper bound of the data. *)
Lemma fold_max_ge (xs : list Z) (x : Z) : x <= fold_left Z.max xs x.
Proof.
  revert x. induction xs as [|y ys IH]; intros x; simpl; [lia|].
  specialize (IH (Z.max x y)). lia.
Qed.

Lemma fold_max_upper (xs : list Z) (x y : Z) :
  In y xs -> y <= fold_left Z.max xs x.
Proof.
  revert x. induction xs as [|z zs IH]; intros x; simpl; [tauto|].
  intros [-> | Hin].
  - pose proof (fold_max_ge zs (Z.max x y)). lia.
  - apply IH, Hin.
Qed.

Lemma fold_max_bound (xs : list Z) (x b : Z) :
  x <= b -> Forall (fun y => y <= b) xs -> fold_left Z.max xs x <= b.
Proof.
  revert x. induction xs as [|z zs IH]; intros x Hx Hall; simpl; [exact Hx|].
  inversion Hall as [|? ? Hz Hzs]; subst.
  apply IH; [lia | exact Hzs].
Qed.

Lemma fold_max_in (xs : list Z) (x : Z) :
  fold_left Z.max xs x = x \/ In (fold_left Z.max xs x) xs.
Proof.
  revert x. induction xs as [|z zs IH]; intros x; simpl; [auto|].
  destruct (IH (Z.max x z)) as [H | H]; [|auto].
  rewrite H. destruct (Z.max_spec x z) as [[_ ->] | [_ ->]]; auto.
Qed.

(** [np_max] returns on every array that has an element. *)
Lemma np_max_nonempty (a : ndarray) :
  data a <> [] -> exists mx, np_max a = Ok mx.
Proof.
  unfold np_max. destruct (data a) as [|x xs]; [congruence|]. eauto.
Qed.

Lemma np_max_le (a : ndarray) (mx b : Z) :
  np_max a = Ok mx -> Forall (fun y => y <= b) (data a) -> mx <= b.
Proof.
  unfold np_max. destruct (data a) as [|x xs]; [discriminate|].
  intros [= <-] Hall. inversion Hall; subst. now apply fold_max_bound.
Qed.

(** What [np_max] returns is an element of the array and bounds the others. *)
Lemma np_max_spec (a : ndarray) (mx : Z) :
  np_max a = Ok mx ->
  In mx (data a) /\ forall y, In y (data a) -> y <= mx.
Proof.
  unfold np_max. destruct (data a) as [|x xs]; [discriminate|].
  intros [= <-]. split.
  - destruct (fold_max_in xs x) as [-> | H]; simpl; auto.
  - intros y [<- | Hy]; [apply fold_max_ge | now apply fold_max_upper].
Qed.

Lemma binary_max_le1 (a : ndarray) (mx : Z) :
  binary a -> np_max a = Ok mx -> mx <= 1.
Proof.
  intros Hb Hmx. apply (np_max_le a); [exact Hmx|].
  eapply Forall_impl; [exact Hb|]. simpl. intros x Hx. lia.
Qed.

(** On a binary mask the in-place product does not wrap: 0 stays 0 and 1
    becomes 255. *)
Lemma imul_binary (a : ndarray) :
  binary a -> data (imul a 255) = map (fun x => 255 * x) (data a).
Proof.
  unfold binary, imul. simpl. induction 1 as [|x xs Hx _ IH]; simpl; [reflexivity|].
  rewrite IH. f_equal. destruct Hx as [-> | ->]; reflexivity.
Qed.

End NumPyFacts.

(** ** [ImageResult] construction *)

Module ImageResultFacts.

Import Visualization PyFacts NumPyFacts.

(** Case analysis on the tests a construction goes through. *)
Ltac split_tests :=
  repeat (simpl in *;
    match goal with
    | H : _ = _ |- _ => discriminate H
    | H : Ok _ = Ok _ |- _ => injection H as H; subst
    | H : context [match ?x with _ => _ end] |- _ => destruct x eqn:?
    | |- context [match ?x with _ => _ end] => destruct x eqn:?
    end).

(** Unfold [__post_init__] down to its tests. *)
Ltac open_post_init :=
  unfold ImageResult_new, post_init, post_init_pred, post_init_gt,
    np_max_opt_le1, bind, set_heat_map, set_pred_mask, set_segmentations,
    set_gt_mask in *; simpl in *.

Section WithBackend.

Context {B : Backend}.

Variables (img : Image) (score : Score) (label : Label) (amap : AnomalyMap).

(** Construction stores its first four arguments and the heat map. *)
Lemma new_fields (gt pred : option ndarray) (r : ImageResult) :
  ImageResult_new img score label amap gt pred = Ok r ->
  image r = img /\ pred_score r = score /\ pred_label r = label /\
  anomaly_map r = amap /\
  heat_map r = Some (superimpose_anomaly_map amap img).
Proof.
  open_post_init.
  intros H. split_tests; auto.
Qed.

(** What construction leaves in [pred_mask] and [segmentations]. *)
Lemma new_pred (gt pred : option ndarray) (r : ImageResult) :
  ImageResult_new img score label amap gt pred = Ok r ->
  match pred with
  | None => pred_mask r = None /\ segmentations r = None
  | Some m =>
      exists mx, np_max m = Ok mx /\
        if mx <=? 1 then
          pred_mask r = Some (imul m 255) /\
          segmentations r = Some (mark_boundaries img (imul m 255))
        else pred_mask r = Some m /\ segmentations r = None
  end.
Proof.
  open_post_init.
  intros H. destruct pred as [m|]; simpl in H.
  - destruct (np_max m) as [mx|e] eqn:Hmx; [|discriminate].
    exists mx. split; [reflexivity|].
    destruct (mx <=? 1); split_tests; auto.
  - split_tests; auto.
Qed.

(** What construction leaves in [gt_mask]: whether the ground truth is
    rescaled is decided by the maximum of [pred_mask] as the first test
    left it. *)
Lemma new_gt (gt pred : option ndarray) (r : ImageResult) :
  ImageResult_new img score label amap gt pred = Ok r ->
  match gt with
  | None => gt_mask r = None
  | Some g =>
      exists pm mx, pred_mask r = Some pm /\ np_max pm = Ok mx /\
        gt_mask r = Some (if mx <=? 1 then imul g 255 else g)
  end.
Proof.
  open_post_init.
  intros H. destruct gt as [g|]; simpl in H.
  - destruct pred as [m|]; simpl in H; [|discriminate].
    destruct (np_max m) as [mx|e] eqn:Hmx; [|discriminate].
    destruct (mx <=? 1) eqn:Hle; simpl in H.
    + destruct (np_max (imul m 255)) as [mx'|e] eqn:Hmx'; [|discriminate].
      simpl in H. exists (imul m 255), mx'.
      destruct (mx' <=? 1); injection H as <-; simpl; auto.
    + rewrite Hmx in H. simpl in H. rewrite Hle in H.
      injection H as <-. exists m, mx. simpl. rewrite Hle. auto.
  - split_tests; auto.
Qed.

(** Construction returns whenever no provided mask is empty and a ground
    truth comes with a predicted mask. *)
Lemma new_returns (gt pred : option ndarray) :
  match pred with
  | Some m => data m <> []
  | None => gt = None
  end ->
  exists r, ImageResult_new img score label amap gt pred = Ok r.
Proof.
  open_post_init.
  destruct pred as [m|]; simpl.
  - intros Hne. destruct (np_max_nonempty m Hne) as [mx Hmx].
    assert (Hne' : data (imul m 255) <> []).
    { unfold imul. simpl. destruct (data m); [congruence | discriminate]. }
    destruct (np_max_nonempty _ Hne') as [mx' Hmx'].
    rewrite Hmx. simpl.
    destruct (mx <=? 1) eqn:Hle; destruct gt as [g|]; simpl; eauto.
    + rewrite Hmx'. simpl. destruct (mx' <=? 1); eauto.
    + rewrite Hmx. simpl. rewrite Hle. eauto.
  - intros ->. simpl. eauto.
Qed.

End WithBackend.

End ImageResultFacts.

(** ** [Visualizer] construction and [ImageResult] masks *)

Module VisualizerFacts.

Import Visualization PyFacts NumPyFacts ImageResultFacts.

Section WithBackend.

Context {B : Backend}.

(** No call on a [Visualizer] assigns to [self]. *)
Lemma run_call_self (v : Visualizer) (c : Call) : fst (run_call v c) = v.
Proof. destruct c; reflexivity. Qed.

Lemma run_calls_self (v : Visualizer) (cs : list Call) : run_calls v cs = v.
Proof.
  unfold run_calls. revert v.
  induction cs as [|c cs IH]; intros v; simpl; [reflexivity|].
  rewrite run_call_self. apply IH.
Qed.

(** C1, evaluated on the code.  The claim: each provided mask in the [0,1]
    range is rescaled to 0-255, and whether the ground-truth mask is
    rescaled depends only on the ground-truth mask's own range.  The code
    decides it on the predicted mask instead: the same binary ground truth
    [[0, 1]] is rescaled next to the predicted mask [[0, 0]] and left as it
    is next to the predicted mask [[0, 1]]. *)
Theorem gt_rescale_follows_pred_mask
    (img : Image) (score : Score) (label : Label) (amap : AnomalyMap) :
  let gt := mk_ndarray [1; 2]%nat [0; 1] in
  (exists r,
     ImageResult_new img score label amap (Some gt)
       (Some (mk_ndarray [1; 2]%nat [0; 0])) = Ok r /\
     gt_mask r = Some (mk_ndarray [1; 2]%nat [0; 255])) /\
  (exists r,
     ImageResult_new img score label amap (Some gt)
       (Some (mk_ndarray [1; 2]%nat [0; 1])) = Ok r /\
     pred_mask r = Some (mk_ndarray [1; 2]%nat [0; 255]) /\
     gt_mask r = Some gt).
Proof.
  split; eexists; repeat split; reflexivity.
Qed.

(** C2: [Visualizer(mode, task)] raises a [ValueError] when the mode is not
    one of "full", "simple" or the task is not one of "classification",
    "segmentation"; for a supported pair it returns an object that stores
    both arguments, and no later call on the object changes them. *)
Theorem Visualizer_new_validates (m t : string) :
  (In m ["full"; "simple"] -> In t ["classification"; "segmentation"] ->
   exists v, Visualizer_new m t = Ok v /\ mode v = m /\ task v = t /\
     forall cs : list Call,
       mode (run_calls v cs) = m /\ task (run_calls v cs) = t) /\
  (~ In m ["full"; "simple"] \/ ~ In t ["classification"; "segmentation"] ->
   exists msg, Visualizer_new m t = Raise (ValueError msg)).
Proof.
  unfold Visualizer_new. split.
  - intros Hm Ht.
    apply str_in_In in Hm. apply str_in_In in Ht. rewrite Hm, Ht. simpl.
    eexists. split; [reflexivity|]. simpl. repeat split; auto.
    all: rewrite run_calls_self; reflexivity.
  - intros [Hm | Ht].
    + apply str_in_not_In in Hm. rewrite Hm. simpl. eauto.
    + apply str_in_not_In in Ht. rewrite Ht.
      destruct (str_in m _); simpl; eauto.
Qed.

(** C10: with a supported mode and an unsupported task, the message of the
    [ValueError] reports the mode where the offending value is named:
    "Unknown task type: {mode}. ...". *)
Theorem unknown_task_message_reports_mode (m t : string) :
  In m ["full"; "simple"] ->
  ~ In t ["classification"; "segmentation"] ->
  Visualizer_new m t =
  Raise (ValueError
    ("Unknown task type: " +:+ m
     +:+ ". Please choose one of ['classification', 'segmentation']")).
Proof.
  intros Hm Ht. unfold Visualizer_new.
  apply str_in_In in Hm. apply str_in_not_In in Ht.
  rewrite Hm, Ht. reflexivity.
Qed.

(** C9: constructing an [ImageResult] with a ground-truth mask and no
    predicted mask raises: the ground-truth test takes the maximum of the
    absent predicted mask.  With neither mask the construction returns. *)
Theorem gt_mask_without_pred_mask_raises
    (img : Image) (score : Score) (label : Label) (amap : AnomalyMap)
    (g : ndarray) :
  (exists e, ImageResult_new img score label amap (Some g) None = Raise e) /\
  (exists e,
     post_init_gt (mk_ImageResult img score label amap (Some g) None
                     (Some (superimpose_anomaly_map amap img)) None) = Raise e) /\
  (exists r, ImageResult_new img score label amap None None = Ok r).
Proof.
  repeat split; eexists; reflexivity.
Qed.

End WithBackend.

(** The first part at ("full", "segmentation"), the second at
    ("fancy", "regression"). *)
Lemma Visualizer_new_validates_witness :
  (exists v, Visualizer_new "full" "segmentation" = Ok v /\
     mode v = "full" /\ task v = "segmentation" /\
     forall cs : list (Call (B := recording)),
       mode (run_calls v cs) = "full" /\
       task (run_calls v cs) = "segmentation") /\
  (exists msg, Visualizer_new "fancy" "regression" = Raise (ValueError msg)).
Proof.
  split.
  - apply (proj1 (Visualizer_new_validates (B := recording)
                    "full" "segmentation")); simpl; auto.
  - apply (proj2 (Visualizer_new_validates (B := recording)
                    "fancy" "regression")).
    left. simpl. intros [H | [H | []]]; discriminate H.
Defined.

Lemma unknown_task_message_reports_mode_witness :
  Visualizer_new "full" "regression" =
  Raise (ValueError
    "Unknown task type: full. Please choose one of ['classification', 'segmentation']").
Proof.
  apply (unknown_task_message_reports_mode "full" "regression").
  - simpl. auto.
  - simpl. intros [H | [H | []]]; discriminate H.
Defined.

End VisualizerFacts.

(** ** Composition of the visualisations *)

Module ComposerFacts.

Import Visualization PyFacts NumPyFacts ImageResultFacts.

Section WithBackend.

Context {B : Backend}.

Variables (img : Image) (score : Score) (label : Label) (amap : AnomalyMap).

(** The simple segmentation view of any result whose two inputs are set. *)
Lemma visualize_simple_segmentation (v : Visualizer) (r : ImageResult)
    (h : Image) (pm : ndarray) :
  mode v = "simple" -> task v = "segmentation" ->
  heat_map r = Some h -> pred_mask r = Some pm ->
  visualize_image v r =
  Ok (cvtColor_RGB2BGR (scale_to_uint8 (mark_boundaries h pm))).
Proof.
  intros Hm Ht Hh Hp.
  unfold visualize_image, _visualize_simple, get_heat_map.
  rewrite Hm, Ht, Hh, Hp. reflexivity.
Qed.

(** C3: in mode "simple" with task "segmentation", the visualisation of an
    [ImageResult] built with a predicted mask is the boundary overlay of its
    heat map and its predicted mask, scaled to uint8 and converted from RGB
    to BGR; for a binary mask the predicted mask is the mask times 255. *)
Theorem simple_segmentation_is_boundary_overlay
    (v : Visualizer) (gt : option ndarray) (m : ndarray) (r : ImageResult) :
  mode v = "simple" -> task v = "segmentation" ->
  ImageResult_new img score label amap gt (Some m) = Ok r ->
  exists h pm,
    heat_map r = Some h /\ pred_mask r = Some pm /\
    visualize_image v r =
      Ok (cvtColor_RGB2BGR (scale_to_uint8 (mark_boundaries h pm))) /\
    h = superimpose_anomaly_map amap img /\
    (binary m -> pm = imul m 255).
Proof.
  intros Hm Ht Hnew.
  destruct (new_fields _ _ _ _ _ _ _ Hnew) as (_ & _ & _ & _ & Hh).
  destruct (new_pred _ _ _ _ _ _ _ Hnew) as (mx & Hmx & Hcase).
  destruct (mx <=? 1) eqn:Hle.
  - destruct Hcase as [Hp _].
    exists (superimpose_anomaly_map amap img), (imul m 255).
    repeat split; auto.
    apply visualize_simple_segmentation; assumption.
  - destruct Hcase as [Hp _].
    exists (superimpose_anomaly_map amap img), m.
    repeat split; auto.
    + apply visualize_simple_segmentation; assumption.
    + intros Hb. pose proof (binary_max_le1 m mx Hb Hmx).
      apply Z.leb_gt in Hle. lia.
Qed.

(** C4: in mode "full" with task "classification", a result whose
    [pred_label] is truthy is laid out as exactly two panels: the original
    image, then the heat map with the anomalous label and the score. *)
Theorem full_classification_two_panels
    (v : Visualizer) (gt pred : option ndarray) (r : ImageResult) :
  mode v = "full" -> task v = "classification" ->
  truthy label = true ->
  ImageResult_new img score label amap gt pred = Ok r ->
  let panels :=
    [mk_entry (PImage img) (Some "Image") None;
     mk_entry
       (PImage (add_anomalous_label (superimpose_anomaly_map amap img) score))
       (Some "Prediction") None] in
  _visualize_full_grid v r = Ok panels /\
  visualize_image v r = Ok (rasterize panels) /\
  length panels = 2%nat.
Proof.
  intros Hm Ht Hl Hnew.
  destruct (new_fields _ _ _ _ _ _ _ Hnew) as (Hi & Hs & Hlab & _ & Hh).
  assert (Hgrid : _visualize_full_grid v r =
    Ok [mk_entry (PImage img) (Some "Image") None;
        mk_entry
          (PImage (add_anomalous_label (superimpose_anomaly_map amap img) score))
          (Some "Prediction") None]).
  { unfold _visualize_full_grid, get_heat_map, image_classified, add_image.
    rewrite Ht, Hh, Hi, Hs, Hlab, Hl. reflexivity. }
  simpl. repeat split; [exact Hgrid|].
  unfold visualize_image, _visualize_full. rewrite Hm, Hgrid. reflexivity.
Qed.

(** X23: in mode "full" with task "segmentation", a result with a
    predicted mask whose [segmentations] attribute was set at construction is
    laid out left to right as original image, ground-truth mask (if and only
    if present), predicted heat map, predicted mask, segmentation overlay:
    five panels with a ground truth and four without. *)
Theorem full_segmentation_panels
    (v : Visualizer) (gt : option ndarray) (m : ndarray) (r : ImageResult)
    (s : Image) :
  mode v = "full" -> task v = "segmentation" ->
  ImageResult_new img score label amap gt (Some m) = Ok r ->
  segmentations r = Some s ->
  exists h pm,
    heat_map r = Some h /\ pred_mask r = Some pm /\
    _visualize_full_grid v r = Ok (segmentation_panels r h pm s) /\
    visualize_image v r = Ok (rasterize (segmentation_panels r h pm s)) /\
    (is_Some (gt_mask r) <-> is_Some gt) /\
    length (segmentation_panels r h pm s) =
      match gt with Some _ => 5%nat | None => 4%nat end.
Proof.
  intros Hm Ht Hnew Hs.
  destruct (new_fields _ _ _ _ _ _ _ Hnew) as (_ & _ & _ & _ & Hh).
  destruct (new_pred _ _ _ _ _ _ _ Hnew) as (mx & Hmx & Hcase).
  pose proof (new_gt _ _ _ _ _ _ _ Hnew) as Hgt.
  assert (Hp : exists pm, pred_mask r = Some pm).
  { destruct (mx <=? 1); destruct Hcase as [Hp _]; eauto. }
  destruct Hp as [pm Hp].
  exists (superimpose_anomaly_map amap img), pm.
  assert (Hgrid : _visualize_full_grid v r =
            Ok (segmentation_panels r (superimpose_anomaly_map amap img) pm s)).
  { unfold _visualize_full_grid, get_heat_map, get_segmentations,
      segmentation_panels, add_image.
    rewrite Ht, Hp, Hh, Hs. simpl. destruct (gt_mask r); reflexivity. }
  repeat split; auto.
  - unfold visualize_image, _visualize_full. rewrite Hm, Hgrid. simpl.
    unfold segmentation_panels. reflexivity.
  - destruct gt; [eauto | rewrite Hgt; intros [? [=]]].
  - destruct gt as [g|]; [|intros [? [=]]].
    destruct Hgt as (? & ? & _ & _ & ->). eauto.
  - unfold segmentation_panels. destruct gt as [g|].
    + destruct Hgt as (? & ? & _ & _ & ->). reflexivity.
    + rewrite Hgt. reflexivity.
Qed.

(** C8, amended: [segmentations] is set at construction exactly when a
    predicted mask is given and its maximum is at most 1; a result without
    it is refused by the full segmentation view: by the assertion on
    [pred_mask] when no predicted mask was given, and by the read of the
    unset attribute when the mask's maximum exceeds 1. *)
Theorem segmentations_assigned_iff
    (v : Visualizer) (gt pred : option ndarray) (r : ImageResult) :
  mode v = "full" -> task v = "segmentation" ->
  ImageResult_new img score label amap gt pred = Ok r ->
  (is_Some (segmentations r) <->
   exists m mx, pred = Some m /\ np_max m = Ok mx /\ mx <= 1) /\
  (segmentations r = None ->
   visualize_image v r =
   match pred with
   | None => Raise AssertionError
   | Some _ => Raise (AttributeError "segmentations")
   end).
Proof.
  intros Hm Ht Hnew.
  destruct (new_fields _ _ _ _ _ _ _ Hnew) as (_ & _ & _ & _ & Hh).
  pose proof (new_pred _ _ _ _ _ _ _ Hnew) as Hpred.
  destruct pred as [m|].
  - destruct Hpred as (mx & Hmx & Hcase).
    destruct (mx <=? 1) eqn:Hle; destruct Hcase as [Hp Hs].
    + apply Z.leb_le in Hle. split.
      * split; [intros _; eauto | intros _; rewrite Hs; eauto].
      * rewrite Hs. discriminate.
    + apply Z.leb_gt in Hle. split.
      * rewrite Hs. split; [intros [? [=]]|].
        intros (m' & mx' & [= <-] & Hmx' & Hle'). rewrite Hmx in Hmx'.
        injection Hmx' as <-. lia.
      * intros _.
        unfold visualize_image, _visualize_full, _visualize_full_grid,
          get_heat_map, get_segmentations.
        rewrite Hm, Ht, Hp, Hh, Hs. simpl. destruct (gt_mask r); reflexivity.
  - destruct Hpred as [Hp Hs]. split.
    + rewrite Hs. split; [intros [? [=]] | intros (? & ? & [=] & _)].
    + intros _. unfold visualize_image, _visualize_full, _visualize_full_grid.
      rewrite Hm, Ht, Hp. reflexivity.
Qed.

(** C5, evaluated on the code.  The claim: in mode "full" with task
    "segmentation", every result with a predicted mask is laid out as
    original image, ground truth if present, heat map, predicted mask and
    segmentation overlay.  The code: for the predicted mask [[0, 255]],
    already in the 0-255 domain, construction leaves [segmentations] unset,
    and the full view raises on reading it instead of laying out its four
    panels, while the simple view of the same result is produced. *)
Theorem full_segmentation_raises_on_scaled_mask :
  exists r,
    ImageResult_new img score label amap None (Some mask0255) = Ok r /\
    pred_mask r = Some mask0255 /\
    segmentations r = None /\
    visualize_image (mk_Visualizer "full" "segmentation") r =
      Raise (AttributeError "segmentations") /\
    visualize_image (mk_Visualizer "simple" "segmentation") r =
      Ok (cvtColor_RGB2BGR
            (scale_to_uint8
               (mark_boundaries (superimpose_anomaly_map amap img) mask0255))).
Proof.
  eexists. repeat split; reflexivity.
Qed.

End WithBackend.

End ComposerFacts.

(** ** The composer on concrete inputs *)

Module ComposerExamples.

Import Visualization NumPyFacts ComposerFacts.

Lemma simple_segmentation_is_boundary_overlay_witness :
  sample_new None (Some mask01) =
    Ok (sample_result None (Some mask0255)
          (Some (Apply "mark_boundaries" [Input "image"; Array mask0255]))) /\
  exists h pm,
    Some sample_heat_map = Some h /\ Some mask0255 = Some pm /\
    visualize_image (B := recording) (mk_Visualizer "simple" "segmentation")
      (sample_result None (Some mask0255)
         (Some (Apply "mark_boundaries" [Input "image"; Array mask0255])))
    = Ok (Apply "cvtColor_RGB2BGR"
            [Apply "astype_uint8"
               [Apply "mul" [Apply "mark_boundaries" [h; Array pm];
                             Number 255]]]) /\
    h = sample_heat_map /\
    (binary mask01 -> pm = imul mask01 255).
Proof.
  split; [reflexivity|].
  apply (simple_segmentation_is_boundary_overlay (B := recording)
           (Input "image") (Number 1) (LInt 1) (Input "anomaly_map")
           (mk_Visualizer "simple" "segmentation") None mask01
           (sample_result None (Some mask0255)
              (Some (Apply "mark_boundaries" [Input "image"; Array mask0255])))
           eq_refl eq_refl eq_refl).
Defined.

Lemma full_classification_two_panels_witness :
  sample_new None None = Ok (sample_result None None None) /\
  _visualize_full_grid (B := recording) (mk_Visualizer "full" "classification")
    (sample_result None None None)
  = Ok [mk_entry (PImage (Input "image")) (Some "Image") None;
        mk_entry
          (PImage (Apply "add_anomalous_label" [sample_heat_map; Number 1]))
          (Some "Prediction") None].
Proof.
  split; [reflexivity|].
  apply (full_classification_two_panels (B := recording)
           (Input "image") (Number 1) (LInt 1) (Input "anomaly_map")
           (mk_Visualizer "full" "classification") None None
           (sample_result None None None) eq_refl eq_refl eq_refl eq_refl).
Defined.

(** On the recording backend: a predicted mask already in the 0-255 domain
    is not None, yet the full segmentation view of the result raises instead
    of laying out its four panels. *)
Lemma full_segmentation_unset_segmentations :
  sample_new None (Some mask0255) =
    Ok (sample_result None (Some mask0255) None) /\
  visualize_image (B := recording) (mk_Visualizer "full" "segmentation")
    (sample_result None (Some mask0255) None) =
  Raise (AttributeError "segmentations").
Proof.
  split; reflexivity.
Qed.

Lemma full_segmentation_panels_witness :
  sample_new (Some mask01) (Some mask01) =
    Ok (sample_result (Some mask01) (Some mask0255)
          (Some (Apply "mark_boundaries" [Input "image"; Array mask0255]))) /\
  visualize_image (B := recording) (mk_Visualizer "full" "segmentation")
    (sample_result (Some mask01) (Some mask0255)
       (Some (Apply "mark_boundaries" [Input "image"; Array mask0255])))
  = Ok (rasterize (Backend := recording)
    [mk_entry (PImage (Input "image")) (Some "Image") None;
     mk_entry (PMask mask01) (Some "Ground Truth") (Some "gray");
     mk_entry (PImage sample_heat_map) (Some "Predicted Heat Map") None;
     mk_entry (PMask mask0255) (Some "Predicted Mask") (Some "gray");
     mk_entry (PImage (Apply "mark_boundaries" [Input "image"; Array mask0255]))
       (Some "Segmentation Result") None]).
Proof.
  split; [reflexivity|].
  destruct (full_segmentation_panels (B := recording)
              (Input "image") (Number 1) (LInt 1) (Input "anomaly_map")
              (mk_Visualizer "full" "segmentation") (Some mask01) mask01
              (sample_result (Some mask01) (Some mask0255)
                 (Some (Apply "mark_boundaries" [Input "image"; Array mask0255])))
              (Apply "mark_boundaries" [Input "image"; Array mask0255])
              eq_refl eq_refl eq_refl eq_refl)
    as (h & pm & Hh & Hp & _ & Hv & _).
  injection Hh as <-. injection Hp as <-. exact Hv.
Defined.

(** C8 as stated fails: with no predicted mask the full segmentation view
    stops at its assertion, not at the read of the unset attribute. *)
Lemma full_segmentation_absent_pred_mask_asserts :
  sample_new None None = Ok (sample_result None None None) /\
  visualize_image (B := recording) (mk_Visualizer "full" "segmentation")
    (sample_result None None None) = Raise AssertionError /\
  visualize_image (B := recording) (mk_Visualizer "full" "segmentation")
    (sample_result None None None) <> Raise (AttributeError "segmentations").
Proof.
  repeat split; try reflexivity. discriminate.
Qed.

Lemma segmentations_assigned_iff_witness :
  sample_new None (Some mask0255) =
    Ok (sample_result None (Some mask0255) None) /\
  visualize_image (B := recording) (mk_Visualizer "full" "segmentation")
    (sample_result None (Some mask0255) None)
  = Raise (AttributeError "segmentations").
Proof.
  split; [reflexivity|].
  apply (proj2 (segmentations_assigned_iff (B := recording)
                  (Input "image") (Number 1) (LInt 1) (Input "anomaly_map")
                  (mk_Visualizer "full" "segmentation") None (Some mask0255)
                  (sample_result None (Some mask0255) None)
                  eq_refl eq_refl eq_refl)).
  reflexivity.
Defined.

End ComposerExamples.

(** ** The callback pipeline *)

Module CliFacts.

Import Cli PyFacts.

Section WithEnv.

Variable env : Env.

(** The call reaches the normalization block with the configured callbacks,
    the checkpoint, the optional model loader and the timer in the list. *)
Lemma set_callbacks_blocks (config : Config) :
  __set_callbacks env config =
  (set_normalization (normalization_method (metrics config)) >>
   set_exports env config) (before_normalization config).
Proof.
  unfold __set_callbacks, set_callbacks_body, before_normalization,
    checkpoint_args, configured, set_exports, mbind, assign, append, ret, when.
  destruct (callbacks (trainer config)) as [cbs|]; simpl.
  - destruct (callback_args_of cbs !! "EarlyStopping") as [args|]; simpl;
      destruct (resume_from_checkpoint (trainer config)) as [ckpt|]; simpl;
      try destruct (String.eqb ckpt ""); simpl;
      rewrite <- ?app_assoc; reflexivity.
  - destruct (resume_from_checkpoint (trainer config)) as [ckpt|]; simpl;
      try destruct (String.eqb ckpt ""); reflexivity.
Qed.

(** What the normalization block appends, and how it ends. *)
Lemma set_normalization_run (normalization : option string)
    (cbs : list Callback) :
  set_normalization normalization cbs =
  match normalization with
  | Some n =>
      if String.eqb n "" then (cbs, Ok tt)
      else if String.eqb n "min_max" then
        ((cbs ++ [MinMaxNormalizationCallback])%list, Ok tt)
      else if String.eqb n "cdf" then
        ((cbs ++ [CdfNormalizationCallback])%list, Ok tt)
      else (cbs, Raise (ValueError (unknown_normalization n)))
  | None => (cbs, Ok tt)
  end.
Proof.
  unfold set_normalization, append, raise, ret.
  destruct normalization as [n|]; [|reflexivity].
  destruct (String.eqb n ""); simpl; [reflexivity|].
  destruct (String.eqb n "min_max"); [reflexivity|].
  destruct (String.eqb n "cdf"); reflexivity.
Qed.

(** The export statements append no normalization callback. *)
Lemma set_exports_appends (config : Config) (cbs : list Callback) :
  exists added,
    fst (set_exports env config cbs) = (cbs ++ added)%list /\
    List.filter is_normalization added = [].
Proof.
  unfold set_exports, set_nncf, import_module, read_image_size,
    getattr_NNCFCallback, OmegaConf_load, mbind, when, append, raise, ret.
  destruct (openvino config); destruct (nncf config) as [path|]; simpl;
    try destruct (String.eqb path ""); simpl;
    try destruct (openvino_module env); simpl;
    try destruct (image_size (data_init_args (data config))); simpl;
    try destruct (isfile env path && endswith path ".yaml"); simpl;
    try destruct (nncf_module env); simpl;
    try destruct (nncf_callback_class env); simpl;
    try destruct (omegaconf_load env path); simpl;
    rewrite <- ?app_assoc;
    first [ by exists [] ; rewrite app_nil_r
          | by eexists [_]
          | by eexists [_; _] ].
Qed.

(** The export statements raise [simultaneous_msg] exactly when both
    options are set. *)
Lemma set_exports_both (config : Config) (cbs : list Callback) :
  openvino config = true -> truthy_opt_str (nncf config) = true ->
  set_exports env config cbs = (cbs, Raise (ValueError simultaneous_msg)).
Proof.
  intros Ho Hn. unfold set_exports, mbind, when, raise.
  rewrite Ho, Hn. reflexivity.
Qed.

Lemma set_exports_not_both (config : Config) (cbs : list Callback) :
  openvino config && truthy_opt_str (nncf config) = false ->
  snd (set_exports env config cbs) <> Raise (ValueError simultaneous_msg).
Proof.
  intros Hb.
  unfold set_exports, set_nncf, import_module, read_image_size,
    getattr_NNCFCallback, OmegaConf_load, mbind, when, append, raise, ret.
  rewrite Hb.
  destruct (openvino config); destruct (nncf config) as [path|]; simpl in *;
    try destruct (String.eqb path ""); simpl in *;
    try destruct (openvino_module env); simpl;
    try destruct (image_size (data_init_args (data config))); simpl;
    try destruct (isfile env path && endswith path ".yaml"); simpl;
    try destruct (nncf_module env); simpl;
    try destruct (nncf_callback_class env); simpl;
    try destruct (omegaconf_load env path); simpl;
    discriminate.
Qed.

(** C6: when the openvino flag is set and the nncf path is non-empty, the
    construction of the callback pipeline raises a [ValueError]: the one of
    the mutual-exclusion test, unless the normalization block met an unknown
    method first and raised its own.  When at most one of the two is set, the
    [ValueError] of the mutual-exclusion test is not raised. *)
Theorem openvino_nncf_exclusive (config : Config) :
  (openvino config = true -> truthy_opt_str (nncf config) = true ->
   (exists msg, snd (__set_callbacks env config) = Raise (ValueError msg)) /\
   (normalization_known (normalization_method (metrics config)) = true ->
    snd (__set_callbacks env config) =
    Raise (ValueError "OpenVINO and NNCF cannot be set simultaneously."))) /\
  (openvino config = false \/ truthy_opt_str (nncf config) = false ->
   snd (__set_callbacks env config) <>
   Raise (ValueError "OpenVINO and NNCF cannot be set simultaneously.")).
Proof.
  rewrite set_callbacks_blocks. unfold mbind at 1 2 3.
  rewrite set_normalization_run.
  set (cbs := before_normalization config).
  unfold normalization_known.
  split.
  - intros Ho Hn.
    destruct (normalization_method (metrics config)) as [n|];
      [destruct (String.eqb n ""); [|destruct (String.eqb n "min_max");
         [|destruct (String.eqb n "cdf")]]|];
      simpl; rewrite ?set_exports_both by assumption; simpl;
      split; eauto; discriminate.
  - intros Hb.
    assert (Hb' : openvino config && truthy_opt_str (nncf config) = false).
    { destruct Hb as [-> | ->]; [reflexivity | apply andb_false_r]. }
    destruct (normalization_method (metrics config)) as [n|];
      [destruct (String.eqb n ""); [|destruct (String.eqb n "min_max");
         [|destruct (String.eqb n "cdf")]]|];
      simpl;
      try (match goal with
           | |- context [set_exports env config ?l] =>
               pose proof (set_exports_not_both config l Hb') as Hne;
               destruct (set_exports env config l) as [l' [[]|e]]; simpl in *;
               [discriminate | exact Hne]
           end).
    unfold unknown_normalization. simpl. discriminate.
Qed.

(** What the call appended: checkpoint, loader and timer, then the
    normalization callback, then the export callbacks. *)
Lemma appended_shape (config : Config) :
  exists head added,
    appended env config =
      (head ++ normalization_callbacks (normalization_method (metrics config))
       ++ added)%list /\
    List.filter is_normalization head = [] /\
    List.filter is_normalization added = [].
Proof.
  unfold appended. rewrite set_callbacks_blocks. unfold mbind.
  rewrite set_normalization_run.
  unfold before_normalization.
  set (head := ([ModelCheckpoint _ _ _ _ _] ++ _ ++ [TimerCallback])%list).
  assert (Hhead : List.filter is_normalization head = []).
  { subst head. simpl.
    destruct (resume_from_checkpoint (trainer config)) as [ckpt|];
      [destruct (String.eqb ckpt "")|]; reflexivity. }
  clearbody head. exists head. unfold normalization_callbacks.
  destruct (normalization_method (metrics config)) as [n|].
  - destruct (String.eqb_spec n "") as [-> | Hn]; simpl.
    + destruct (set_exports_appends config (configured config ++ head))
        as (added & Hfst & Hnone).
      destruct (set_exports env config _) as [l r]. simpl in Hfst. subst l.
      exists added. cbn [fst]. rewrite <- app_assoc, drop_app_length. auto.
    + destruct (String.eqb n "min_max"); [|destruct (String.eqb n "cdf")].
      * destruct (set_exports_appends config
                    ((configured config ++ head)
                     ++ [MinMaxNormalizationCallback]))
          as (added & Hfst & Hnone).
        destruct (set_exports env config _) as [l r]. simpl in Hfst. subst l.
        exists added. cbn [fst]. rewrite <- !app_assoc, drop_app_length. auto.
      * destruct (set_exports_appends config
                    ((configured config ++ head)
                     ++ [CdfNormalizationCallback]))
          as (added & Hfst & Hnone).
        destruct (set_exports env config _) as [l r]. simpl in Hfst. subst l.
        exists added. cbn [fst]. rewrite <- !app_assoc, drop_app_length. auto.
      * exists []. cbn [fst]. rewrite drop_app_length, !app_nil_r. auto.
  - destruct (set_exports_appends config (configured config ++ head))
      as (added & Hfst & Hnone).
    destruct (set_exports env config _) as [l r]. simpl in Hfst. subst l.
    exists added. cbn [fst]. rewrite <- app_assoc, drop_app_length. auto.
Qed.

(** The call only appends: the list it leaves starts with the configured
    callbacks. *)
Lemma callbacks_extend (config : Config) :
  fst (__set_callbacks env config) =
  (configured config ++ appended env config)%list.
Proof.
  unfold appended. rewrite set_callbacks_blocks. unfold mbind.
  rewrite set_normalization_run. unfold before_normalization.
  set (head := ([ModelCheckpoint _ _ _ _ _] ++ _ ++ [TimerCallback])%list).
  clearbody head.
  assert (Hrun : forall l : list Callback, exists added,
            fst (set_exports env config (configured config ++ l)%list) =
            (configured config ++ l ++ added)%list).
  { intros l.
    destruct (set_exports_appends config (configured config ++ l)%list)
      as (added & -> & _). exists added. now rewrite <- app_assoc. }
  destruct (normalization_method (metrics config)) as [n|];
    [destruct (String.eqb n ""); [|destruct (String.eqb n "min_max");
       [|destruct (String.eqb n "cdf")]]|];
    rewrite <- ?app_assoc;
    try (match goal with
         | |- context [set_exports env config (configured config ++ ?l)%list] =>
             destruct (Hrun l) as [added Hfst];
             destruct (set_exports env config (configured config ++ l)%list)
               as [final r];
             cbn [fst] in *; subst final
         end);
    cbn [fst]; now rewrite drop_app_length.
Qed.

(** The normalization callbacks among the appended ones. *)
Lemma appended_normalization (config : Config) :
  List.filter is_normalization (appended env config) =
  normalization_callbacks (normalization_method (metrics config)).
Proof.
  destruct (appended_shape config) as (head & added & -> & Hh & Ha).
  rewrite !List.filter_app, Hh, Ha, app_nil_r. simpl.
  unfold normalization_callbacks.
  destruct (normalization_method (metrics config)) as [n|]; [|reflexivity].
  destruct (String.eqb n "min_max"); [reflexivity|].
  destruct (String.eqb n "cdf"); reflexivity.
Qed.

Lemma In_appended_normalization (config : Config) (c : Callback) :
  is_normalization c = true ->
  (In c (appended env config) <->
   In c (normalization_callbacks (normalization_method (metrics config)))).
Proof.
  intros Hc. rewrite <- appended_normalization, List.filter_In. tauto.
Qed.

(** C7: the construction of the callback pipeline only appends to the
    configured callbacks; it appends the min-max normalization callback
    exactly when the method is "min_max" and the CDF normalization callback
    exactly when it is "cdf", once and as the only normalization callback it
    appends; it appends none when the method is unset; and for every other
    non-empty method it raises a [ValueError] whose message names the method
    and the available ones. *)
Theorem normalization_callback_selection (config : Config) :
  let method := normalization_method (metrics config) in
  fst (__set_callbacks env config) =
    (configured config ++ appended env config)%list /\
  (In MinMaxNormalizationCallback (appended env config) <->
   method = Some "min_max") /\
  (In CdfNormalizationCallback (appended env config) <->
   method = Some "cdf") /\
  (length (List.filter is_normalization (appended env config)) <= 1)%nat /\
  (truthy_opt_str method = false ->
   List.filter is_normalization (appended env config) = []) /\
  (forall n, method = Some n -> n <> "" -> n <> "min_max" -> n <> "cdf" ->
   snd (__set_callbacks env config) =
   Raise (ValueError
     ("Unknown normalization type " +:+ n +:+ ". " +:+ String "010"%char ""
      +:+ "Available types are either None, min_max or cdf"))).
Proof.
  intros method. subst method.
  split; [apply callbacks_extend|].
  rewrite !In_appended_normalization by reflexivity.
  rewrite appended_normalization.
  rewrite set_callbacks_blocks. unfold mbind.
  rewrite set_normalization_run.
  unfold normalization_callbacks.
  destruct (normalization_method (metrics config)) as [n|]; simpl.
  - destruct (String.eqb_spec n "min_max") as [-> | Hmm]; simpl.
    { repeat split; try tauto; try lia; try discriminate.
      - intros [H | []]. discriminate H.
      - intros n' [= <-] _ Hx. congruence. }
    destruct (String.eqb_spec n "cdf") as [-> | Hcdf]; simpl.
    { repeat split; try tauto; try lia; try discriminate.
      - intros [H | []]. discriminate H.
      - intros n' [= <-] _ _ Hx. congruence. }
    repeat split; try tauto; try lia; try congruence.
    intros n' [= <-] Hne _ _.
    destruct (String.eqb_spec n "") as [-> | _]; [congruence|].
    reflexivity.
  - repeat split; try tauto; try lia; try discriminate.
Qed.

End WithEnv.

End CliFacts.

(** ** The callback pipeline on concrete configurations *)

Module CliExamples.

Import Cli CliFacts.

Lemma openvino_nncf_exclusive_witness :
  snd (__set_callbacks sample_env
         (sample_config (Some "min_max") true (Some "nncf.yaml"))) =
    Raise (ValueError "OpenVINO and NNCF cannot be set simultaneously.") /\
  snd (__set_callbacks sample_env (sample_config (Some "min_max") true None)) <>
    Raise (ValueError "OpenVINO and NNCF cannot be set simultaneously.").
Proof.
  split.
  - apply (proj2 (proj1 (openvino_nncf_exclusive sample_env
                           (sample_config (Some "min_max") true
                              (Some "nncf.yaml")))
                    eq_refl eq_refl)).
    reflexivity.
  - apply (proj2 (openvino_nncf_exclusive sample_env
                    (sample_config (Some "min_max") true None))).
    right. reflexivity.
Defined.

Lemma normalization_callback_selection_witness :
  snd (__set_callbacks sample_env (sample_config (Some "z_score") false None)) =
  Raise (ValueError
    ("Unknown normalization type z_score. " +:+ String "010"%char ""
     +:+ "Available types are either None, min_max or cdf")).
Proof.
  apply (proj2 (proj2 (proj2 (proj2 (proj2
           (normalization_callback_selection sample_env
              (sample_config (Some "z_score") false None))))))
           "z_score" eq_refl); discriminate.
Defined.

(** The pipeline of the sample configuration with min-max normalization and
    the OpenVINO export. *)
Example set_callbacks_sample :
  __set_callbacks sample_env (sample_config (Some "min_max") true None) =
  ([FromConfig (mk_CallbackSpec "pytorch_lightning.callbacks.EarlyStopping"
                  (mk_InitArgs (Some "pixel_AUROC") "max"));
    ModelCheckpoint "./results/weights" "model" (Some "pixel_AUROC") "max" false;
    TimerCallback;
    MinMaxNormalizationCallback;
    OpenVINOCallback [256; 256] "./results/compressed" "model"],
   Ok tt).
Proof. reflexivity. Qed.

End CliExamples.

(** ** Python strings *)

Module StringFacts.

Import Py.

Lemma append_nil_l (s : string) : "" +:+ s = s.
Proof. reflexivity. Qed.

Lemma append_cons (c : ascii) (a b : string) :
  String c a +:+ b = String c (a +:+ b).
Proof. reflexivity. Qed.

(** [String.append] does not unfold under [simpl]: push it inwards. *)
Ltac push_append := rewrite ?append_cons, ?append_nil_l in *; simpl in *.

Lemma append_nil_r (s : string) : s +:+ "" = s.
Proof. induction s as [|c s IH]; push_append; [reflexivity | now rewrite IH]. Qed.

Lemma append_assoc (a b c : string) : (a +:+ b) +:+ c = a +:+ (b +:+ c).
Proof. induction a as [|x a IH]; push_append; [reflexivity | now rewrite IH]. Qed.

Lemma length_append (a b : string) :
  String.length (a +:+ b) = (String.length a + String.length b)%nat.
Proof. induction a as [|x a IH]; push_append; [reflexivity | now rewrite IH]. Qed.

Lemma substring_all (s : string) : String.substring 0 (String.length s) s = s.
Proof. induction s as [|c s IH]; simpl; [reflexivity | now rewrite IH]. Qed.

Lemma substring_append_r (p q : string) :
  String.substring (String.length p) (String.length q) (p +:+ q) = q.
Proof. induction p as [|c p IH]; push_append; [apply substring_all | exact IH]. Qed.

(** A string splits at any position within it. *)
Lemma substring_split (s : string) (k : nat) :
  (k <= String.length s)%nat ->
  s = String.substring 0 k s
      +:+ String.substring k (String.length s - k) s.
Proof.
  revert k. induction s as [|c s IH]; intros k Hk; simpl in *.
  - destruct k; reflexivity.
  - destruct k as [|k]; simpl.
    + now rewrite substring_all.
    + rewrite append_cons, <- IH by lia. reflexivity.
Qed.

(** [endswith] holds exactly of the strings that end with the suffix. *)
Lemma endswith_spec (s suffix : string) :
  endswith s suffix = true <-> exists p, s = p +:+ suffix.
Proof.
  unfold endswith. rewrite andb_true_iff, Nat.leb_le, String.eqb_eq. split.
  - intros [Hle Hsub].
    exists (String.substring 0 (String.length s - String.length suffix) s).
    pose proof (substring_split s (String.length s - String.length suffix))
      as Hsplit.
    replace (String.length s - (String.length s - String.length suffix))%nat
      with (String.length suffix) in Hsplit by lia.
    rewrite Hsub in Hsplit. apply Hsplit. lia.
  - intros [p ->]. rewrite length_append. split; [lia|].
    replace (String.length p + String.length suffix - String.length suffix)%nat
      with (String.length p) by lia.
    apply substring_append_r.
Qed.

(** [split_on] always returns a piece. *)
Lemma split_on_nonempty (sep : ascii) (cur s : string) :
  split_on sep cur s <> [].
Proof.
  revert cur. induction s as [|c s IH]; intros cur; simpl; [discriminate|].
  destruct (Ascii.eqb c sep); [discriminate | apply IH].
Qed.

(** Without a separator the string is the one piece. *)
Lemma split_on_no_sep (sep : ascii) (cur s : string) :
  has_char sep s = false -> split_on sep cur s = [cur +:+ s].
Proof.
  revert cur. induction s as [|c s IH]; intros cur; simpl.
  - intros _. now rewrite append_nil_r.
  - rewrite orb_false_iff. intros [-> Hs].
    rewrite IH by exact Hs. now rewrite append_assoc.
Qed.

(** The last piece of a string is what follows its last separator. *)
Lemma last_split_on (sep : ascii) (cur p n : string) :
  has_char sep n = false ->
  last_item (split_on sep cur (p +:+ String sep n)) = n.
Proof.
  intros Hn. unfold last_item. revert cur.
  induction p as [|c p IH]; intros cur; push_append.
  - rewrite Ascii.eqb_refl, (split_on_no_sep sep "" n Hn). reflexivity.
  - destruct (Ascii.eqb c sep).
    + specialize (IH ""). pose proof (split_on_nonempty sep "" (p +:+ String sep n)).
      destruct (split_on sep "" (p +:+ String sep n)); [congruence | exact IH].
    + apply IH.
Qed.

Lemma has_char_append (c : ascii) (a b : string) :
  has_char c (a +:+ b) = has_char c a || has_char c b.
Proof.
  induction a as [|x a IH]; push_append; [reflexivity|].
  now rewrite IH, orb_assoc.
Qed.

(** No piece contains the separator. *)
Lemma split_on_pieces (sep : ascii) (cur s : string) :
  has_char sep cur = false ->
  Forall (fun piece => has_char sep piece = false) (split_on sep cur s).
Proof.
  revert cur. induction s as [|c s IH]; intros cur Hcur; simpl.
  - constructor; [exact Hcur | constructor].
  - destruct (Ascii.eqb c sep) eqn:Hc.
    + constructor; [exact Hcur | now apply IH].
    + apply IH. rewrite has_char_append, Hcur. simpl. now rewrite Hc.
Qed.

End StringFacts.

(** ** Masks of a constructed [ImageResult] *)

Module MaskFacts.

Import Visualization NumPyFacts ImageResultFacts.

Section WithBackend.

Context {B : Backend}.

Variables (img : Image) (score : Score) (label : Label) (amap : AnomalyMap).

(** X1: constructing an [ImageResult] returns exactly when the predicted
    mask, if given, has at least one element, and a ground-truth mask is
    only given together with a predicted mask. *)
Theorem construction_returns_iff (gt pred : option ndarray) :
  (exists r, ImageResult_new img score label amap gt pred = Ok r) <->
  match pred with
  | Some m => data m <> []
  | None => gt = None
  end.
Proof.
  split; [|apply new_returns].
  intros [r Hnew]. destruct pred as [m|].
  - destruct (new_pred _ _ _ _ _ _ _ Hnew) as (mx & Hmx & _).
    unfold np_max in Hmx. destruct (data m); [discriminate | congruence].
  - destruct gt as [g|]; [|reflexivity]. discriminate Hnew.
Qed.

(** A binary predicted mask passes the range test of the first branch. *)
Lemma new_pred_binary (gt : option ndarray) (m : ndarray) (r : ImageResult) :
  binary m ->
  ImageResult_new img score label amap gt (Some m) = Ok r ->
  pred_mask r = Some (imul m 255) /\
  segmentations r = Some (mark_boundaries img (imul m 255)).
Proof.
  intros Hb Hnew.
  destruct (new_pred _ _ _ _ _ _ _ Hnew) as (mx & Hmx & Hcase).
  pose proof (binary_max_le1 m mx Hb Hmx) as Hle.
  apply Z.leb_le in Hle. now rewrite Hle in Hcase.
Qed.

(** X2: a binary predicted mask is stored rescaled: same shape, every 0
    kept and every 1 turned into 255, and the segmentation overlay is
    computed from the image and the rescaled mask. *)
Theorem binary_pred_mask_rescaled
    (gt : option ndarray) (m : ndarray) (r : ImageResult) :
  binary m ->
  ImageResult_new img score label amap gt (Some m) = Ok r ->
  exists m',
    pred_mask r = Some m' /\
    shape m' = shape m /\
    data m' = map (fun x => 255 * x) (data m) /\
    Forall (fun x => x = 0 \/ x = 255) (data m') /\
    segmentations r = Some (mark_boundaries img m').
Proof.
  intros Hb Hnew.
  destruct (new_pred_binary gt m r Hb Hnew) as [Hp Hs].
  exists (imul m 255). repeat split; auto.
  - apply imul_binary, Hb.
  - rewrite imul_binary by exact Hb. unfold binary in Hb.
    induction Hb as [|x xs Hx _ IH]; simpl; constructor; [lia | exact IH].
Qed.

(** X3: a predicted mask holding a value above 1 is stored as given, and
    no segmentation overlay is computed for it. *)
Theorem large_pred_mask_untouched
    (gt : option ndarray) (m : ndarray) (r : ImageResult) (x : Z) :
  In x (data m) -> 1 < x ->
  ImageResult_new img score label amap gt (Some m) = Ok r ->
  pred_mask r = Some m /\ segmentations r = None.
Proof.
  intros Hin Hx Hnew.
  destruct (new_pred _ _ _ _ _ _ _ Hnew) as (mx & Hmx & Hcase).
  destruct (np_max_spec m mx Hmx) as [_ Hub].
  specialize (Hub x Hin).
  assert (Hgt : (mx <=? 1) = false) by (apply Z.leb_gt; lia).
  rewrite Hgt in Hcase. exact Hcase.
Qed.

(** X4: next to a binary predicted mask, the ground-truth mask is stored
    multiplied by 255 when the predicted mask is all zeros, and stored as
    given as soon as the predicted mask has a 1. *)
Theorem gt_mask_follows_binary_pred
    (g m : ndarray) (r : ImageResult) :
  binary m ->
  ImageResult_new img score label amap (Some g) (Some m) = Ok r ->
  (Forall (fun x => x = 0) (data m) -> gt_mask r = Some (imul g 255)) /\
  (In 1 (data m) -> gt_mask r = Some g).
Proof.
  intros Hb Hnew.
  destruct (new_pred_binary (Some g) m r Hb Hnew) as [Hp _].
  pose proof (imul_binary m Hb) as Hdata.
  destruct (new_gt _ _ _ _ _ _ _ Hnew) as (pm & mx & Hp' & Hmx & Hgt).
  rewrite Hp in Hp'. injection Hp' as <-.
  set (m' := imul m 255) in *.
  split.
  - intros Hzero.
    assert (Hle : mx <= 1).
    { apply (np_max_le m' mx 1 Hmx). rewrite Hdata.
      clear -Hzero. induction Hzero as [|x xs -> _ IH]; simpl; constructor;
        [lia | exact IH]. }
    apply Z.leb_le in Hle. now rewrite Hle in Hgt.
  - intros Hone.
    destruct (np_max_spec m' mx Hmx) as [_ Hub].
    assert (Hin : In 255 (data m')).
    { rewrite Hdata. apply (in_map (fun x => 255 * x) _ 1), Hone. }
    specialize (Hub 255 Hin).
    assert (Hgt' : (mx <=? 1) = false) by (apply Z.leb_gt; lia).
    now rewrite Hgt' in Hgt.
Qed.

End WithBackend.

End MaskFacts.

(** ** The views of a validated [Visualizer] *)

Module ViewFacts.

Import Visualization PyFacts NumPyFacts ImageResultFacts.

(** What [Visualizer(mode, task)] returns, when it returns. *)
Lemma Visualizer_new_ok (m t : string) (v : Visualizer) :
  Visualizer_new m t = Ok v ->
  v = mk_Visualizer m t /\
  (m = "full" \/ m = "simple") /\
  (t = "classification" \/ t = "segmentation").
Proof.
  unfold Visualizer_new.
  destruct (str_in m ["full"; "simple"]) eqn:Hm;
    destruct (str_in t ["classification"; "segmentation"]) eqn:Ht;
    cbn [negb]; try discriminate.
  intros [= <-]. apply str_in_In in Hm, Ht. simpl in Hm, Ht.
  intuition congruence.
Qed.

(** Split a validated visualizer into its four configurations. *)
Ltac four_views H :=
  apply Visualizer_new_ok in H;
  destruct H as (-> & [-> | ->] & [-> | ->]).

Section WithBackend.

Context {B : Backend}.

Variables (img : Image) (score : Score) (label : Label) (amap : AnomalyMap).

(** X5: with task "classification" the view of a constructed result is
    always produced, whatever its masks: the heat map carries the anomalous
    label and the score when [pred_label] is truthy, the normal label and one
    minus the score otherwise; mode "full" puts it after the original image
    in a two-panel grid, mode "simple" returns it converted to BGR. *)
Theorem classification_view
    (m : string) (v : Visualizer) (gt pred : option ndarray) (r : ImageResult) :
  Visualizer_new m "classification" = Ok v ->
  ImageResult_new img score label amap gt pred = Ok r ->
  let h := superimpose_anomaly_map amap img in
  let classified :=
    if truthy label then add_anomalous_label h score
    else add_normal_label h (one_minus score) in
  visualize_image v r =
  Ok (if String.eqb m "full" then
        rasterize [mk_entry (PImage img) (Some "Image") None;
                   mk_entry (PImage classified) (Some "Prediction") None]
      else cvtColor_RGB2BGR classified).
Proof.
  intros Hv Hnew.
  destruct (new_fields _ _ _ _ _ _ _ Hnew) as (Hi & Hs & Hl & _ & Hh).
  apply Visualizer_new_ok in Hv. destruct Hv as (-> & [-> | ->] & _); simpl.
  - unfold visualize_image, _visualize_full, _visualize_full_grid,
      get_heat_map, image_classified, add_image. simpl.
    rewrite Hh, Hi, Hs, Hl. reflexivity.
  - unfold visualize_image, _visualize_simple, get_heat_map,
      image_classified. simpl.
    rewrite Hh, Hs, Hl. reflexivity.
Qed.

(** X6: with task "segmentation" the view of a constructed result is
    produced exactly when a predicted mask was given and either the mode is
    "simple" or the maximum of the given mask is at most 1. *)
Theorem segmentation_view_returns_iff
    (m : string) (v : Visualizer) (gt pred : option ndarray) (r : ImageResult) :
  Visualizer_new m "segmentation" = Ok v ->
  ImageResult_new img score label amap gt pred = Ok r ->
  ((exists out, visualize_image v r = Ok out) <->
   exists pm mx, pred = Some pm /\ np_max pm = Ok mx /\
     (m = "simple" \/ mx <= 1)).
Proof.
  intros Hv Hnew.
  destruct (new_fields _ _ _ _ _ _ _ Hnew) as (_ & _ & _ & _ & Hh).
  pose proof (new_pred _ _ _ _ _ _ _ Hnew) as Hpred.
  apply Visualizer_new_ok in Hv. destruct Hv as (-> & Hm & _).
  unfold visualize_image, _visualize_full, _visualize_full_grid,
    _visualize_simple, get_heat_map, get_segmentations. simpl.
  rewrite Hh.
  destruct pred as [pm|].
  - destruct Hpred as (mx & Hmx & Hcase).
    destruct Hm as [-> | ->]; simpl.
    + destruct (mx <=? 1) eqn:Hle; destruct Hcase as [-> ->]; simpl.
      * apply Z.leb_le in Hle. split; [intros _; eauto 6|].
        intros _. destruct (gt_mask r); simpl; eauto.
      * apply Z.leb_gt in Hle. split.
        -- intros [out Hout]. destruct (gt_mask r); discriminate Hout.
        -- intros (pm' & mx' & [= <-] & Hmx' & [H | H]); [discriminate H|].
           rewrite Hmx in Hmx'. injection Hmx' as <-. lia.
    + assert (Hp : exists pm', pred_mask r = Some pm').
      { destruct (mx <=? 1); destruct Hcase as [-> _]; eauto. }
      destruct Hp as [pm' ->]. split; [intros _; eauto 6 | intros _; eauto].
  - destruct Hpred as [-> _].
    split; [|intros (? & ? & [=] & _)].
    destruct Hm as [-> | ->]; simpl; intros [out Hout]; discriminate Hout.
Qed.

(** X7: a validated visualizer never raises a [ValueError] from
    [visualize_image]: its mode and task are known to both dispatchers, and
    the grid of the full view is never empty. *)
Theorem view_never_raises_ValueError
    (m t : string) (v : Visualizer) (r : ImageResult) (msg : string) :
  Visualizer_new m t = Ok v ->
  visualize_image v r <> Raise (ValueError msg).
Proof.
  intros Hv. four_views Hv;
    unfold visualize_image, _visualize_full, _visualize_full_grid,
      _visualize_simple, get_heat_map, get_segmentations, add_image; simpl;
    destruct (heat_map r); simpl; try discriminate;
    destruct (pred_mask r); simpl; try discriminate;
    destruct (segmentations r); simpl; try discriminate;
    destruct (gt_mask r); simpl; discriminate.
Qed.

(** X8: the grid of the full view starts with the original image, titled
    "Image", and holds two panels for classification and four or five for
    segmentation. *)
Theorem full_grid_layout
    (t : string) (v : Visualizer) (r : ImageResult)
    (g : list (GridEntry Image)) :
  Visualizer_new "full" t = Ok v ->
  _visualize_full_grid v r = Ok g ->
  hd_error g = Some (mk_entry (PImage (image r)) (Some "Image") None) /\
  (t = "classification" -> length g = 2%nat) /\
  (t = "segmentation" ->
   length g = match gt_mask r with Some _ => 5%nat | None => 4%nat end).
Proof.
  intros Hv. apply Visualizer_new_ok in Hv.
  destruct Hv as (-> & _ & [-> | ->]);
    unfold _visualize_full_grid, get_heat_map, get_segmentations, add_image;
    simpl;
    destruct (heat_map r); simpl; try discriminate;
    destruct (pred_mask r); simpl; try discriminate;
    destruct (segmentations r); simpl; try discriminate;
    destruct (gt_mask r); simpl; try discriminate;
    intros [= <-]; repeat split; try reflexivity; discriminate.
Qed.

End WithBackend.

End ViewFacts.

(** ** [visualize_batch] *)

Module BatchFacts.

Import Visualization PyFacts NumPyFacts ImageResultFacts ViewFacts.

Section WithBackend.

Context {B : Backend}.


(** When every item can be visualised, the generator yields them all. *)
Lemma run_generator_all (v : Visualizer) (batch : Batch) (indices : list nat) :
  Forall (fun i => exists img, visualize_batch_item v batch i = Ok img) indices ->
  exists imgs,
    run_generator v batch indices = map Ok imgs /\
    length imgs = length indices.
Proof.
  induction 1 as [|i rest [img Hi] _ (imgs & IH & Hlen)]; simpl.
  - exists []. split; reflexivity.
  - rewrite Hi, IH. exists (img :: imgs). simpl. now rewrite Hlen.
Qed.

(** Each image the generator hands over is the view of the item at the
    same position of the index list. *)
Lemma run_generator_lookup (v : Visualizer) (batch : Batch)
    (indices : list nat) (k : nat) (out : Image) :
  run_generator v batch indices !! k = Some (Ok out) ->
  exists i, indices !! k = Some i /\ visualize_batch_item v batch i = Ok out.
Proof.
  revert k. induction indices as [|i rest IH]; intros k; simpl.
  - intros H. discriminate H.
  - destruct (visualize_batch_item v batch i) as [img|e] eqn:Hi.
    + destruct k as [|k]; simpl.
      * intros [= <-]. eauto.
      * apply IH.
    + destruct k as [|k]; simpl; intros H; discriminate H.
Qed.


(** X10: a batch with the key "mask" and without the key "pred_masks"
    cannot be visualised, whatever the mode and the task: the first item
    already raises while its [ImageResult] is constructed, and no image is
    yielded. *)
Theorem batch_with_mask_without_pred_masks
    (v : Visualizer) (batch : Batch) (gts : list ndarray)
    (img : Image) (score : Score) (label : Label) (amap : AnomalyMap)
    (g : ndarray) :
  batch_pred_masks batch = None ->
  batch_mask batch = Some gts ->
  batch_image batch !! 0%nat = Some img ->
  batch_pred_scores batch !! 0%nat = Some score ->
  batch_pred_labels batch !! 0%nat = Some label ->
  batch_anomaly_maps batch !! 0%nat = Some amap ->
  gts !! 0%nat = Some g ->
  exists msg, visualize_batch v batch = [Raise (TypeError msg)].
Proof.
  intros Hp Hm Hi Hs Hl Ha Hg.
  unfold visualize_batch.
  destruct (batch_image batch) as [|img' imgs] eqn:Himgs; [discriminate Hi|].
  simpl in *.
  unfold visualize_batch_item, item, item_opt, bind.
  rewrite Himgs, Hs, Hl, Ha, Hp, Hm. simpl. unfold item. rewrite Hg. simpl.
  eauto.
Qed.

(** Every view of a result built with a non-empty binary predicted mask is
    produced. *)
Lemma binary_item_views (m t : string) (v : Visualizer)
    (img : Image) (score : Score) (label : Label) (amap : AnomalyMap)
    (gt : option ndarray) (pm : ndarray) :
  Visualizer_new m t = Ok v ->
  binary pm -> data pm <> [] ->
  exists r out,
    ImageResult_new img score label amap gt (Some pm) = Ok r /\
    visualize_image v r = Ok out.
Proof.
  intros Hv Hb Hne.
  destruct (new_returns img score label amap gt (Some pm) Hne) as [r Hnew].
  exists r.
  destruct (new_fields _ _ _ _ _ _ _ Hnew) as (_ & _ & _ & _ & Hh).
  destruct (new_pred _ _ _ _ _ _ _ Hnew) as (mx & Hmx & Hcase).
  pose proof (binary_max_le1 pm mx Hb Hmx) as Hle.
  apply Z.leb_le in Hle. rewrite Hle in Hcase. destruct Hcase as [Hp Hs].
  four_views Hv;
    unfold visualize_image, _visualize_full, _visualize_full_grid,
      _visualize_simple, get_heat_map, get_segmentations, add_image; simpl;
    rewrite ?Hh, ?Hp, ?Hs; simpl;
    try destruct (gt_mask r); simpl; eauto.
Qed.

(** X11: with a supported mode and task, a batch whose tensors all have one
    entry per image and whose predicted masks are non-empty and binary is
    visualised completely: one image per item, no exception, with or without
    ground-truth masks. *)
Theorem visualize_batch_complete
    (m t : string) (v : Visualizer) (batch : Batch) (pms : list ndarray) :
  Visualizer_new m t = Ok v ->
  let n := length (batch_image batch) in
  length (batch_pred_scores batch) = n ->
  length (batch_pred_labels batch) = n ->
  length (batch_anomaly_maps batch) = n ->
  batch_pred_masks batch = Some pms ->
  length pms = n ->
  Forall (fun pm => binary pm /\ data pm <> []) pms ->
  match batch_mask batch with
  | Some gts => length gts = n
  | None => True
  end ->
  exists imgs,
    visualize_batch v batch = map Ok imgs /\ length imgs = n.
Proof.
  intros Hv n Hs Hl Ha Hp Hpn Hbin Hm.
  unfold visualize_batch. fold n.
  destruct (run_generator_all v batch (seq 0 n)) as (imgs & Hrun & Hlen).
  - apply Forall_forall. intros i Hi. apply elem_of_seq in Hi.
    assert (Hin : (i < n)%nat) by lia. clear Hi.
    unfold visualize_batch_item, item, item_opt, bind. rewrite Hp.
    destruct (lookup_lt_is_Some_2 (batch_image batch) i) as [img ->];
      [exact Hin|].
    destruct (lookup_lt_is_Some_2 (batch_pred_scores batch) i) as [sc ->];
      [lia|].
    destruct (lookup_lt_is_Some_2 (batch_pred_labels batch) i) as [lb ->];
      [lia|].
    destruct (lookup_lt_is_Some_2 (batch_anomaly_maps batch) i) as [am ->];
      [lia|].
    destruct (lookup_lt_is_Some_2 pms i) as [pm Hpm]; [lia|].
    unfold item. rewrite Hpm. simpl.
    assert (Hpmb : binary pm /\ data pm <> []).
    { rewrite Forall_forall in Hbin. apply Hbin.
      eapply list_elem_of_lookup_2, Hpm. }
    destruct Hpmb as [Hb Hne].
    destruct (batch_mask batch) as [gts|]; simpl.
    + destruct (lookup_lt_is_Some_2 gts i) as [g Hg]; [lia|].
      unfold item. rewrite Hg. simpl.
      destruct (binary_item_views m t v img sc lb am (Some g) pm Hv Hb Hne)
        as (r & out & -> & Hout). simpl. eauto.
    + destruct (binary_item_views m t v img sc lb am None pm Hv Hb Hne)
        as (r & out & -> & Hout). simpl. eauto.
  - exists imgs. rewrite length_seq in Hlen. auto.
Qed.

(** X22: the image yielded at position [k] is the view of item [k] of the
    batch: its [ImageResult] is built from entry [k] of every tensor of the
    batch, with the masks of the keys that are present. *)
Theorem yielded_image_is_item_view
    (v : Visualizer) (batch : Batch) (k : nat) (out : Image) :
  visualize_batch v batch !! k = Some (Ok out) ->
  exists img score label amap pred gt r,
    batch_image batch !! k = Some img /\
    batch_pred_scores batch !! k = Some score /\
    batch_pred_labels batch !! k = Some label /\
    batch_anomaly_maps batch !! k = Some amap /\
    pred = (batch_pred_masks batch ≫= fun l => l !! k) /\
    gt = (batch_mask batch ≫= fun l => l !! k) /\
    ImageResult_new img score label amap gt pred = Ok r /\
    visualize_image v r = Ok out.
Proof.
  unfold visualize_batch. intros Hk.
  destruct (run_generator_lookup _ _ _ _ _ Hk) as (i & Hi & Hitem).
  apply lookup_seq in Hi. destruct Hi as [Hi _]. simpl in Hi. subst i.
  unfold visualize_batch_item, item_opt, item, bind in Hitem.
  destruct (batch_image batch !! k) as [img|]; [|discriminate].
  destruct (batch_pred_scores batch !! k) as [score|]; [|discriminate].
  destruct (batch_pred_labels batch !! k) as [label|]; [|discriminate].
  destruct (batch_anomaly_maps batch !! k) as [amap|]; [|discriminate].
  exists img, score, label, amap.
  destruct (batch_pred_masks batch) as [pms|]; simpl in *.
  - destruct (pms !! k) as [pm|]; [|discriminate].
    destruct (batch_mask batch) as [gts|]; simpl in *.
    + destruct (gts !! k) as [g|]; [|discriminate].
      destruct (ImageResult_new img score label amap (Some g) (Some pm))
        as [r|] eqn:Hr; [|discriminate].
      exists (Some pm), (Some g), r. repeat split; auto.
    + destruct (ImageResult_new img score label amap None (Some pm))
        as [r|] eqn:Hr; [|discriminate].
      exists (Some pm), None, r. repeat split; auto.
  - destruct (batch_mask batch) as [gts|]; simpl in *.
    + destruct (gts !! k) as [g|]; [|discriminate].
      destruct (ImageResult_new img score label amap (Some g) None)
        as [r|] eqn:Hr; [|discriminate].
      exists None, (Some g), r. repeat split; auto.
    + eexists None, None, _. repeat (split; [reflexivity|]). exact Hitem.
Qed.

End WithBackend.

End BatchFacts.

(** ** The callback pipeline, block by block *)

Module PipelineFacts.

Import Cli PyFacts StringFacts CliFacts.

(** Case analysis on the tests of the export statements. *)
Ltac export_cases env config :=
  unfold set_exports, set_nncf, import_module, read_image_size,
    getattr_NNCFCallback, OmegaConf_load, mbind, when, append, raise, ret,
    truthy_opt_str;
  destruct (openvino config);
  destruct (nncf config) as [path|];
  try destruct (String.eqb_spec path "") as [-> | ?];
  try destruct (openvino_module env) eqn:?;
  try destruct (image_size (data_init_args (data config))) eqn:?;
  try destruct (isfile env path) eqn:?;
  try destruct (endswith path ".yaml") eqn:?;
  try destruct (nncf_module env) eqn:?;
  try destruct (nncf_callback_class env) eqn:?;
  try destruct (omegaconf_load env path) eqn:?;
  cbn [negb andb orb fst snd].

(** Case analysis on the tests of the normalization block. *)
Ltac normalization_cases config :=
  unfold normalization_known, normalization_callbacks;
  destruct (normalization_method (metrics config)) as [method|];
  [destruct (String.eqb_spec method "") as [-> | ?];
   [|destruct (String.eqb method "min_max") eqn:?;
     [|destruct (String.eqb method "cdf") eqn:?]]|];
  cbn [String.eqb negb andb orb fst snd].

Section WithEnv.

Variable env : Env.

(** The call, after its first three blocks, is the normalization block
    followed by the export statements. *)
Lemma set_callbacks_run (config : Config) :
  __set_callbacks env config =
  match normalization_method (metrics config) with
  | Some n =>
      if String.eqb n "" then set_exports env config (before_normalization config)
      else if String.eqb n "min_max" then
        set_exports env config
          (before_normalization config ++ [MinMaxNormalizationCallback])%list
      else if String.eqb n "cdf" then
        set_exports env config
          (before_normalization config ++ [CdfNormalizationCallback])%list
      else (before_normalization config,
            Raise (ValueError (unknown_normalization n)))
  | None => set_exports env config (before_normalization config)
  end.
Proof.
  rewrite set_callbacks_blocks. unfold mbind. rewrite set_normalization_run.
  destruct (normalization_method (metrics config)) as [n|]; [|reflexivity].
  destruct (String.eqb n ""); [reflexivity|].
  destruct (String.eqb n "min_max"); [reflexivity|].
  destruct (String.eqb n "cdf"); reflexivity.
Qed.

(** Everything the call appended, in the order of the source. *)
Lemma appended_layout (config : Config) :
  appended env config =
  (ModelCheckpoint (os_path_join (default_root_dir (trainer config)) "weights")
     "model" (fst (checkpoint_args config)) (snd (checkpoint_args config)) false
   :: load_callbacks config
   ++ TimerCallback
   :: normalization_callbacks (normalization_method (metrics config))
   ++ export_callbacks env config)%list.
Proof.
  unfold appended. rewrite set_callbacks_run.
  unfold before_normalization, export_callbacks. fold (load_callbacks config).
  set (ckpt := ModelCheckpoint _ _ _ _ _).
  set (load := load_callbacks config).
  set (root := default_root_dir (trainer config)).
  normalization_cases config; export_cases env config;
    rewrite <- ?app_assoc, drop_app_length; cbn [app];
    rewrite ?app_nil_r; reflexivity.
Qed.

(** X12: the construction of the callback pipeline returns exactly when
    the normalization method is unset, empty, "min_max" or "cdf", the two
    export options are not both set, and every step of each export that is
    asked for goes through: for OpenVINO, the callback module imports and
    [data.init_args] has an [image_size]; for NNCF, the path names an existing
    file ending in ".yaml", the callback module imports and has the class
    [NNCFCallback], and the file loads as a configuration. *)
Theorem set_callbacks_returns_iff (config : Config) :
  snd (__set_callbacks env config) = Ok tt <->
  normalization_known (normalization_method (metrics config)) = true /\
  openvino config && truthy_opt_str (nncf config) = false /\
  (openvino config = true ->
   openvino_module env = true /\
   exists size, image_size (data_init_args (data config)) = Some size) /\
  (forall p, nncf config = Some p -> p <> "" ->
   isfile env p = true /\ endswith p ".yaml" = true /\
   nncf_module env = true /\ nncf_callback_class env = true /\
   exists c, omegaconf_load env p = Loaded c).
Proof.
  rewrite set_callbacks_run.
  normalization_cases config; export_cases env config;
    (split;
     [ intros Hres; try discriminate Hres;
       repeat split; intros; simplify_eq; eauto; congruence
     | intros (Hk & Hb & Ho & Hn);
       try discriminate Hk; try discriminate Hb;
       try (destruct (Ho eq_refl) as (? & ? & ?); congruence);
       try (match goal with
            | Hne : ?q <> "" |- _ =>
                destruct (Hn q eq_refl Hne) as (? & ? & ? & ? & ? & ?);
                congruence
            end);
       reflexivity ]).
Qed.

(** X13: when neither export is asked for (the openvino flag is off and
    the nncf path is unset or empty), the construction of the callback
    pipeline fails only on a normalization method other than "min_max" and
    "cdf", with the [ValueError] that names the method. *)
Theorem without_exports_only_normalization_fails (config : Config) (e : exn) :
  openvino config = false ->
  truthy_opt_str (nncf config) = false ->
  (snd (__set_callbacks env config) = Raise e <->
   exists n,
     normalization_method (metrics config) = Some n /\
     n <> "" /\ n <> "min_max" /\ n <> "cdf" /\
     e = ValueError
           ("Unknown normalization type " +:+ n +:+ ". " +:+ String "010"%char ""
            +:+ "Available types are either None, min_max or cdf")).
Proof.
  intros Ho Hn. rewrite set_callbacks_run.
  assert (Hexp : forall cbs, snd (set_exports env config cbs) = Ok tt).
  { intros cbs. unfold set_exports, mbind, when, ret.
    rewrite Ho. cbn [andb].
    unfold truthy_opt_str in Hn. destruct (nncf config) as [path|]; simpl.
    - apply negb_false_iff in Hn. rewrite Hn. reflexivity.
    - reflexivity. }
  destruct (normalization_method (metrics config)) as [n|].
  - destruct (String.eqb_spec n "") as [-> | Hne].
    { rewrite Hexp. split; [discriminate|].
      intros (n & [= <-] & Hn' & _). congruence. }
    destruct (String.eqb_spec n "min_max") as [-> | Hmm].
    { rewrite Hexp. split; [discriminate|].
      intros (n & [= <-] & _ & Hn' & _). congruence. }
    destruct (String.eqb_spec n "cdf") as [-> | Hcdf].
    { rewrite Hexp. split; [discriminate|].
      intros (n & [= <-] & _ & _ & Hn' & _). congruence. }
    cbn [snd]. split.
    + intros [= <-]. exists n. repeat split; auto.
    + intros (n' & [= <-] & _ & _ & _ & ->). reflexivity.
  - rewrite Hexp. split; [discriminate | intros (n & [=] & _)].
Qed.

(** X14: with the OpenVINO export off and an accepted normalization
    method, an NNCF path that is not an existing file, or does not end in
    ".yaml", is refused with a [ValueError] that quotes the path. *)
Theorem nncf_path_refused (config : Config) (p : string) :
  openvino config = false ->
  normalization_known (normalization_method (metrics config)) = true ->
  nncf config = Some p -> p <> "" ->
  isfile env p = false \/ endswith p ".yaml" = false ->
  snd (__set_callbacks env config) =
  Raise (ValueError
    ("--nncf expects a path to nncf config which is a yaml file, but got "
     +:+ p)).
Proof.
  intros Ho Hk Hn Hp Hbad. rewrite set_callbacks_run.
  unfold set_exports, set_nncf, mbind, when, raise, ret.
  rewrite Ho, Hn. cbn [andb truthy_opt_str snd].
  destruct (String.eqb_spec p "") as [-> | _]; [congruence|]. cbn [negb].
  assert (Hand : isfile env p && endswith p ".yaml" = false).
  { destruct Hbad as [-> | ->]; [reflexivity | apply andb_false_r]. }
  rewrite Hand. revert Hk.
  normalization_cases config; intros Hk; try discriminate Hk; reflexivity.
Qed.

(** Entries of other classes leave the dictionary entry of a class alone. *)
Lemma callback_args_fold_other (k : string) (cbs : list CallbackSpec)
    (m : gmap string InitArgs) :
  Forall (fun d => class_name d <> k) cbs ->
  fold_left (fun m c => <[class_name c := init_args c]> m) cbs m !! k = m !! k.
Proof.
  intros H. revert m. induction H as [|d cbs Hd _ IH]; intros m; simpl.
  - reflexivity.
  - rewrite IH. now apply lookup_insert_ne.
Qed.

(** The dictionary maps a class name to the arguments of its last entry. *)
Lemma callback_args_last (pre post : list CallbackSpec) (c : CallbackSpec) :
  Forall (fun d => class_name d <> class_name c) post ->
  callback_args_of (pre ++ c :: post) !! class_name c = Some (init_args c).
Proof.
  intros Hpost. unfold callback_args_of.
  rewrite fold_left_app. simpl.
  rewrite callback_args_fold_other by exact Hpost.
  apply lookup_insert_eq.
Qed.

Lemma In_normalization_callbacks (o : option string) (c : Callback) :
  In c (normalization_callbacks o) -> is_normalization c = true.
Proof.
  unfold normalization_callbacks. destruct o as [n|]; [|intros []].
  destruct (String.eqb n "min_max"); [intros [<- | []]; reflexivity|].
  destruct (String.eqb n "cdf"); [intros [<- | []]; reflexivity | intros []].
Qed.

Lemma In_export_callbacks (config : Config) (c : Callback) :
  In c (export_callbacks env config) -> is_export c = true.
Proof.
  unfold export_callbacks.
  destruct (negb _); [intros []|].
  destruct (openvino config).
  - destruct (truthy_opt_str _); [intros []|].
    destruct (openvino_module env); [|intros []].
    destruct (image_size _); [intros [<- | []]; reflexivity | intros []].
  - destruct (nncf config) as [path|]; [|intros []].
    destruct (_ && _); [|intros []].
    destruct (omegaconf_load env path);
      [intros [<- | []]; reflexivity | intros [] | intros []].
Qed.

Lemma In_load_callbacks (config : Config) (c : Callback) :
  In c (load_callbacks config) <->
  exists p, c = LoadModelCallback p /\
    resume_from_checkpoint (trainer config) = Some p /\ p <> "".
Proof.
  unfold load_callbacks.
  destruct (resume_from_checkpoint (trainer config)) as [ckpt|].
  - destruct (String.eqb_spec ckpt "") as [-> | Hne]; simpl.
    + split; [intros [] | intros (p & _ & [= <-] & Hp); congruence].
    + split.
      * intros [<- | []]. eauto.
      * intros (p & -> & [= <-] & _). auto.
  - simpl. split; [intros [] | intros (p & _ & [=] & _)].
Qed.

(** X15: the checkpoint callback takes [monitor] and [mode] from the
    configured callback whose class name is "EarlyStopping"; when several
    are configured, from the last of them. *)
Theorem checkpoint_follows_last_early_stopping
    (config : Config) (pre post : list CallbackSpec) (c : CallbackSpec) :
  callbacks (trainer config) = Some (pre ++ c :: post)%list ->
  class_name c = "EarlyStopping" ->
  Forall (fun d => class_name d <> "EarlyStopping") post ->
  hd_error (appended env config) =
  Some (ModelCheckpoint
          (os_path_join (default_root_dir (trainer config)) "weights") "model"
          (monitor (init_args c)) (mode (init_args c)) false).
Proof.
  intros Hcbs Hc Hpost. rewrite appended_layout. simpl.
  unfold checkpoint_args. rewrite Hcbs, <- Hc.
  rewrite callback_args_last by (rewrite Hc; exact Hpost).
  reflexivity.
Qed.

(** X16: without a configured callback whose class name is "EarlyStopping",
    the checkpoint callback monitors nothing, in mode "max". *)
Theorem checkpoint_default_monitor (config : Config) :
  match callbacks (trainer config) with
  | Some cbs => Forall (fun d => class_name d <> "EarlyStopping") cbs
  | None => True
  end ->
  hd_error (appended env config) =
  Some (ModelCheckpoint
          (os_path_join (default_root_dir (trainer config)) "weights") "model"
          None "max" false).
Proof.
  intros Hcbs. rewrite appended_layout. simpl.
  unfold checkpoint_args.
  destruct (callbacks (trainer config)) as [cbs|]; [|reflexivity].
  unfold callback_args_of. rewrite callback_args_fold_other by exact Hcbs.
  rewrite lookup_empty. reflexivity.
Qed.

(** X17: the callback that loads a checkpoint is appended exactly when
    [resume_from_checkpoint] is a non-empty path, and for that path. *)
Theorem load_model_iff_resume (config : Config) (p : string) :
  In (LoadModelCallback p) (appended env config) <->
  resume_from_checkpoint (trainer config) = Some p /\ p <> "".
Proof.
  rewrite appended_layout. simpl. rewrite !in_app_iff. simpl.
  rewrite in_app_iff, In_load_callbacks. split.
  - intros [H | [(q & [= <-] & Hq) | [H | [H | H]]]]; try discriminate H; auto.
    + apply In_normalization_callbacks in H. discriminate H.
    + apply In_export_callbacks in H. discriminate H.
  - intros [Hr Hp]. right. left. eauto.
Qed.

(** X18: whether or not the call raises, it appends exactly one checkpoint
    callback, first, writing "model" under the "weights" directory of the
    root directory, and exactly one timer callback after it. *)
Theorem checkpoint_and_timer_always (config : Config) :
  exists mon md rest,
    appended env config =
      ModelCheckpoint
        (os_path_join (default_root_dir (trainer config)) "weights") "model"
        mon md false :: rest /\
    List.filter is_checkpoint rest = [] /\
    List.filter is_timer rest = [TimerCallback].
Proof.
  rewrite appended_layout. do 3 eexists. split; [reflexivity|].
  assert (Hload : forall f : Callback -> bool,
             (forall q, f (LoadModelCallback q) = false) ->
             List.filter f (load_callbacks config) = []).
  { intros f Hf. unfold load_callbacks.
    destruct (resume_from_checkpoint (trainer config)) as [ckpt|];
      [destruct (String.eqb ckpt "")|]; simpl; rewrite ?Hf; reflexivity. }
  assert (Hnorm : forall f : Callback -> bool,
             f MinMaxNormalizationCallback = false ->
             f CdfNormalizationCallback = false ->
             List.filter f (normalization_callbacks
                              (normalization_method (metrics config))) = []).
  { intros f H1 H2. unfold normalization_callbacks.
    destruct (normalization_method (metrics config)) as [n|]; [|reflexivity].
    destruct (String.eqb n "min_max"); simpl; rewrite ?H1; [reflexivity|].
    destruct (String.eqb n "cdf"); simpl; rewrite ?H2; reflexivity. }
  assert (Hexp : forall f : Callback -> bool,
             (forall c, is_export c = true -> f c = false) ->
             List.filter f (export_callbacks env config) = []).
  { intros f Hf.
    assert (Hall : forall l, (forall c, In c l -> is_export c = true) ->
                     List.filter f l = []).
    { induction l as [|c l IH]; intros Hl; simpl; [reflexivity|].
      rewrite (Hf c) by (apply Hl; left; reflexivity).
      apply IH. intros d Hd. apply Hl. right. exact Hd. }
    apply Hall. intros c. apply In_export_callbacks. }
  rewrite !List.filter_app. simpl. rewrite !List.filter_app.
  rewrite !Hload, !Hnorm, !Hexp by
    (try reflexivity; intros c; destruct c; simpl; congruence).
  split; reflexivity.
Qed.

(** Membership in the appended callbacks of a callback that only the export
    statements construct. *)
Lemma In_appended_export (config : Config) (c : Callback) :
  is_export c = true ->
  (In c (appended env config) <-> In c (export_callbacks env config)).
Proof.
  intros Hc. rewrite appended_layout. simpl. rewrite !in_app_iff. simpl.
  rewrite in_app_iff, In_load_callbacks. split; [|auto 6].
  intros [H | [(q & -> & _) | [H | [H | H]]]]; try exact H;
    try discriminate Hc; try (subst c; discriminate Hc).
  apply In_normalization_callbacks in H. destruct c; discriminate.
Qed.

(** X19: the OpenVINO export callback is appended exactly when the openvino
    flag is set, no NNCF path is given, the normalization method is accepted,
    the callback module imports and [data.init_args] has an [image_size]; it
    is built with that image size and writes "model" under the "compressed"
    directory of the root directory. *)
Theorem openvino_callback_iff
    (config : Config) (size : list Z) (dirpath filename : string) :
  In (OpenVINOCallback size dirpath filename) (appended env config) <->
  openvino config = true /\
  truthy_opt_str (nncf config) = false /\
  normalization_known (normalization_method (metrics config)) = true /\
  openvino_module env = true /\
  image_size (data_init_args (data config)) = Some size /\
  dirpath = os_path_join (default_root_dir (trainer config)) "compressed" /\
  filename = "model".
Proof.
  rewrite In_appended_export by reflexivity. unfold export_callbacks.
  destruct (normalization_known _); cbn [negb];
    [|split; [intros [] | intros (_ & _ & H & _); discriminate H]].
  destruct (openvino config).
  - destruct (truthy_opt_str (nncf config));
      [split; [intros [] | intros (_ & H & _); discriminate H]|].
    destruct (openvino_module env);
      [|split; [intros [] | intros (_ & _ & _ & H & _); discriminate H]].
    destruct (image_size (data_init_args (data config))) as [size'|];
      [|split; [intros [] | intros (_ & _ & _ & _ & H & _); discriminate H]].
    simpl. split.
    + intros [[= <- <- <-] | []]. repeat split; reflexivity.
    + intros (_ & _ & _ & _ & [= ->] & -> & ->). left. reflexivity.
  - split; [|intros (H & _); discriminate H].
    destruct (nncf config) as [path|]; [|intros []].
    destruct (_ && _); [|intros []].
    destruct (omegaconf_load env path);
      [intros [H | []]; discriminate H | intros [] | intros []].
Qed.

(** X20: the NNCF callback is appended exactly when the openvino flag is
    off, the normalization method is accepted, the NNCF path is non-empty,
    names an existing file and ends in ".yaml", the callback module imports
    and has the class [NNCFCallback], and the file loads; it is built from
    the loaded configuration and writes "model" under the "compressed"
    directory of the root directory. *)
Theorem nncf_callback_iff
    (config : Config) (loaded : DictConfig) (dirpath filename : string) :
  In (NNCFCallback loaded dirpath filename) (appended env config) <->
  openvino config = false /\
  normalization_known (normalization_method (metrics config)) = true /\
  (exists path,
     nncf config = Some path /\ path <> "" /\
     isfile env path = true /\
     (exists stem, path = stem +:+ ".yaml") /\
     omegaconf_load env path = Loaded loaded) /\
  nncf_module env = true /\
  nncf_callback_class env = true /\
  dirpath = os_path_join (default_root_dir (trainer config)) "compressed" /\
  filename = "model".
Proof.
  rewrite In_appended_export by reflexivity. unfold export_callbacks.
  destruct (normalization_known _); cbn [negb];
    [|split; [intros [] | intros (_ & H & _); discriminate H]].
  destruct (openvino config).
  - split; [|intros (H & _); discriminate H].
    destruct (truthy_opt_str (nncf config)); [intros []|].
    destruct (openvino_module env); [|intros []].
    destruct (image_size _); [intros [H | []]; discriminate H | intros []].
  - destruct (nncf config) as [p|];
      [|split; [intros [] | intros (_ & _ & (? & [=] & _) & _)]].
    destruct (String.eqb_spec p "") as [-> | Hp]; cbn [negb andb].
    { split; [intros [] | intros (_ & _ & (? & [= <-] & H & _) & _); congruence]. }
    destruct (isfile env p) eqn:Hf; cbn [andb];
      [|split; [intros []
               | intros (_ & _ & (? & [= <-] & _ & H & _) & _); congruence]].
    destruct (endswith p ".yaml") eqn:He; cbn [andb].
    2:{ split; [intros []|].
        intros (_ & _ & (? & [= <-] & _ & _ & H & _) & _).
        apply endswith_spec in H. congruence. }
    destruct (nncf_module env); cbn [andb];
      [|split; [intros [] | intros (_ & _ & _ & H & _); discriminate H]].
    destruct (nncf_callback_class env);
      [|split; [intros [] | intros (_ & _ & _ & _ & H & _); discriminate H]].
    destruct (omegaconf_load env p) as [c| |] eqn:Hl.
    + simpl. split.
      * intros [[= <- <- <-] | []]. repeat split; auto.
        exists p. repeat split; auto. now apply endswith_spec.
      * intros (_ & _ & (? & [= <-] & _ & _ & _ & Hl') & _ & _ & -> & ->).
        rewrite Hl in Hl'. injection Hl' as <-. left. reflexivity.
    + split; [intros []|].
      intros (_ & _ & (? & [= <-] & _ & _ & _ & Hl') & _). congruence.
    + split; [intros []|].
      intros (_ & _ & (? & [= <-] & _ & _ & _ & Hl') & _). congruence.
Qed.

(** X21: the class name under which a configured callback is filed is the
    part of its class path after the last dot, and the whole path when it
    has no dot: "EarlyStopping" is recognised under any module path. *)
Theorem class_name_last_segment (p n : string) (args : InitArgs) :
  has_char "."%char n = false ->
  class_name (mk_CallbackSpec (p +:+ "." +:+ n) args) = n /\
  class_name (mk_CallbackSpec n args) = n.
Proof.
  intros Hn. unfold class_name, str_split. simpl. split.
  - apply (last_split_on "."%char "" p n Hn).
  - rewrite (split_on_no_sep "."%char "" n Hn). reflexivity.
Qed.

End WithEnv.

End PipelineFacts.

(** ** Further runs on concrete inputs *)

Module ViewExamples.

Import Visualization NumPyFacts MaskFacts ViewFacts BatchFacts.

Lemma binary_mask01 : binary mask01.
Proof.
  unfold binary, mask01. simpl.
  constructor; [left; reflexivity|].
  constructor; [right; reflexivity | constructor].
Defined.

Lemma binary_pred_mask_rescaled_witness :
  exists m',
    pred_mask (sample_result None (Some mask0255) (Some sample_overlay))
      = Some m' /\
    shape m' = shape mask01 /\
    data m' = map (fun x => 255 * x) (data mask01) /\
    Forall (fun x => x = 0 \/ x = 255) (data m') /\
    segmentations (sample_result None (Some mask0255) (Some sample_overlay))
      = Some (mark_boundaries (Backend := recording) (Input "image") m').
Proof.
  exact (binary_pred_mask_rescaled (B := recording)
           (Input "image") (Number 1) (LInt 1) (Input "anomaly_map")
           None mask01
           (sample_result None (Some mask0255) (Some sample_overlay))
           binary_mask01 eq_refl).
Defined.

Lemma large_pred_mask_untouched_witness :
  pred_mask (sample_result None (Some mask0255) None) = Some mask0255 /\
  segmentations (sample_result None (Some mask0255) None) = None.
Proof.
  apply (large_pred_mask_untouched (B := recording)
           (Input "image") (Number 1) (LInt 1) (Input "anomaly_map")
           None mask0255 (sample_result None (Some mask0255) None) 255).
  - simpl. auto.
  - lia.
  - reflexivity.
Defined.

Lemma gt_mask_follows_binary_pred_witness :
  gt_mask (sample_result (Some mask01) (Some mask0255) (Some sample_overlay))
  = Some mask01.
Proof.
  apply (proj2 (gt_mask_follows_binary_pred (B := recording)
                  (Input "image") (Number 1) (LInt 1) (Input "anomaly_map")
                  mask01 mask01
                  (sample_result (Some mask01) (Some mask0255)
                     (Some sample_overlay))
                  binary_mask01 eq_refl)).
  simpl. auto.
Defined.

Lemma classification_view_witness :
  visualize_image (B := recording) (mk_Visualizer "simple" "classification")
    (sample_result None None None) =
  Ok (Apply "cvtColor_RGB2BGR"
        [Apply "add_anomalous_label" [sample_heat_map; Number 1]]).
Proof.
  exact (classification_view (B := recording)
           (Input "image") (Number 1) (LInt 1) (Input "anomaly_map")
           "simple" (mk_Visualizer "simple" "classification") None None
           (sample_result None None None) eq_refl eq_refl).
Defined.

Lemma segmentation_view_returns_iff_witness :
  exists out,
    visualize_image (B := recording) (mk_Visualizer "simple" "segmentation")
      (sample_result None (Some mask0255) None) = Ok out.
Proof.
  apply (proj2 (segmentation_view_returns_iff (B := recording)
                  (Input "image") (Number 1) (LInt 1) (Input "anomaly_map")
                  "simple" (mk_Visualizer "simple" "segmentation") None
                  (Some mask0255) (sample_result None (Some mask0255) None)
                  eq_refl eq_refl)).
  exists mask0255, 255. repeat split; auto.
Defined.

Lemma view_never_raises_ValueError_witness :
  visualize_image (B := recording) (mk_Visualizer "full" "segmentation")
    (sample_result None None None)
  <> Raise (ValueError "Unknown visualization mode: full").
Proof.
  exact (view_never_raises_ValueError (B := recording)
           "full" "segmentation" (mk_Visualizer "full" "segmentation")
           (sample_result None None None) "Unknown visualization mode: full"
           eq_refl).
Defined.

Lemma full_grid_layout_witness :
  hd_error
    [mk_entry (PImage (Input "image")) (Some "Image") None;
     mk_entry (PMask mask01) (Some "Ground Truth") (Some "gray");
     mk_entry (PImage sample_heat_map) (Some "Predicted Heat Map") None;
     mk_entry (PMask mask0255) (Some "Predicted Mask") (Some "gray");
     mk_entry (PImage sample_overlay) (Some "Segmentation Result") None]
  = Some (mk_entry (PImage (Input "image")) (Some "Image") None) /\
  ("segmentation" = "classification" -> 5%nat = 2%nat) /\
  ("segmentation" = "segmentation" -> 5%nat = 5%nat).
Proof.
  exact (full_grid_layout (B := recording) "segmentation"
           (mk_Visualizer "full" "segmentation")
           (sample_result (Some mask01) (Some mask0255) (Some sample_overlay))
           _ eq_refl eq_refl).
Defined.

Lemma batch_with_mask_without_pred_masks_witness :
  exists msg,
    visualize_batch (B := recording) (mk_Visualizer "full" "classification")
      (sample_batch None (Some [mask01; mask01]))
    = [Raise (TypeError msg)].
Proof.
  exact (batch_with_mask_without_pred_masks (B := recording)
           (mk_Visualizer "full" "classification")
           (sample_batch None (Some [mask01; mask01])) [mask01; mask01]
           (Input "image0") (Number 1) (LInt 1) (Input "anomaly_map0") mask01
           eq_refl eq_refl eq_refl eq_refl eq_refl eq_refl eq_refl).
Defined.

Lemma visualize_batch_complete_witness :
  exists imgs,
    visualize_batch (B := recording) (mk_Visualizer "full" "segmentation")
      (sample_batch (Some [mask01; mask01]) (Some [mask01; mask01]))
    = map Ok imgs /\ length imgs = 2%nat.
Proof.
  apply (visualize_batch_complete (B := recording) "full" "segmentation"
           (mk_Visualizer "full" "segmentation")
           (sample_batch (Some [mask01; mask01]) (Some [mask01; mask01]))
           [mask01; mask01] eq_refl eq_refl eq_refl eq_refl eq_refl eq_refl).
  - repeat constructor; try exact binary_mask01; discriminate.
  - reflexivity.
Defined.

Lemma yielded_image_is_item_view_witness :
  exists img score label amap pred gt r,
    batch_image (sample_batch (Some [mask01; mask01]) None) !! 0%nat
      = Some img /\
    batch_pred_scores (sample_batch (Some [mask01; mask01]) None) !! 0%nat
      = Some score /\
    batch_pred_labels (sample_batch (Some [mask01; mask01]) None) !! 0%nat
      = Some label /\
    batch_anomaly_maps (sample_batch (Some [mask01; mask01]) None) !! 0%nat
      = Some amap /\
    pred = (batch_pred_masks (sample_batch (Some [mask01; mask01]) None)
            ≫= fun l => l !! 0%nat) /\
    gt = (batch_mask (sample_batch (Some [mask01; mask01]) None)
          ≫= fun l => l !! 0%nat) /\
    ImageResult_new (B := recording) img score label amap gt pred = Ok r /\
    visualize_image (mk_Visualizer "simple" "classification") r =
    Ok (Apply "cvtColor_RGB2BGR"
          [Apply "add_anomalous_label"
             [Apply "superimpose_anomaly_map"
                [Input "anomaly_map0"; Input "image0"];
              Number 1]]).
Proof.
  exact (yielded_image_is_item_view (B := recording)
           (mk_Visualizer "simple" "classification")
           (sample_batch (Some [mask01; mask01]) None) 0
           (Apply "cvtColor_RGB2BGR"
              [Apply "add_anomalous_label"
                 [Apply "superimpose_anomaly_map"
                    [Input "anomaly_map0"; Input "image0"];
                  Number 1]])
           eq_refl).
Defined.

End ViewExamples.

Module PipelineExamples.

Import Cli PipelineFacts.

Lemma without_exports_only_normalization_fails_witness :
  exists n,
    normalization_method
      (metrics (sample_config (Some "z_score") false None)) = Some n /\
    n <> "" /\ n <> "min_max" /\ n <> "cdf" /\
    ValueError
      ("Unknown normalization type z_score. " +:+ String "010"%char ""
       +:+ "Available types are either None, min_max or cdf")
    = ValueError
        ("Unknown normalization type " +:+ n +:+ ". " +:+ String "010"%char ""
         +:+ "Available types are either None, min_max or cdf").
Proof.
  exact (proj1 (without_exports_only_normalization_fails sample_env
                  (sample_config (Some "z_score") false None) _
                  eq_refl eq_refl)
           eq_refl).
Defined.

Lemma nncf_path_refused_witness :
  snd (__set_callbacks sample_env
         (sample_config (Some "cdf") false (Some "nncf.json"))) =
  Raise (ValueError
    "--nncf expects a path to nncf config which is a yaml file, but got nncf.json").
Proof.
  apply (nncf_path_refused sample_env
           (sample_config (Some "cdf") false (Some "nncf.json")) "nncf.json");
    try reflexivity.
  - discriminate.
  - right. reflexivity.
Defined.

Lemma checkpoint_follows_last_early_stopping_witness :
  hd_error (appended sample_env
    (sample_config_with
       (Some [early_stopping "pytorch_lightning.callbacks" "image_AUROC" "min";
              early_stopping "my.callbacks" "pixel_F1Score" "max";
              lr_monitor]))) =
  Some (ModelCheckpoint "./results/weights" "model" (Some "pixel_F1Score")
          "max" false).
Proof.
  apply (checkpoint_follows_last_early_stopping sample_env
           (sample_config_with
              (Some [early_stopping "pytorch_lightning.callbacks"
                       "image_AUROC" "min";
                     early_stopping "my.callbacks" "pixel_F1Score" "max";
                     lr_monitor]))
           [early_stopping "pytorch_lightning.callbacks" "image_AUROC" "min"]
           [lr_monitor]
           (early_stopping "my.callbacks" "pixel_F1Score" "max")
           eq_refl eq_refl).
  constructor; [discriminate | constructor].
Defined.

Lemma checkpoint_default_monitor_witness :
  hd_error (appended sample_env (sample_config_with (Some [lr_monitor]))) =
  Some (ModelCheckpoint "./results/weights" "model" None "max" false).
Proof.
  apply (checkpoint_default_monitor sample_env
           (sample_config_with (Some [lr_monitor]))).
  constructor; [discriminate | constructor].
Defined.

Lemma class_name_last_segment_witness :
  class_name (early_stopping "pytorch_lightning.callbacks" "image_AUROC" "min")
    = "EarlyStopping" /\
  class_name (mk_CallbackSpec "EarlyStopping" (mk_InitArgs None "max"))
    = "EarlyStopping".
Proof.
  split.
  - exact (proj1 (class_name_last_segment "pytorch_lightning.callbacks"
                    "EarlyStopping" (mk_InitArgs (Some "image_AUROC") "min")
                    eq_refl)).
  - exact (proj2 (class_name_last_segment "" "EarlyStopping"
                    (mk_InitArgs None "max") eq_refl)).
Defined.

End PipelineExamples.
